(** * nmt.py: batch padding, corpus scoring, validation schedule and drivers

    A shallow embedding of the bookkeeping code of [nmt.py] (the encoder,
    the decoder, the loss and the vocabulary are collaborators and appear as
    section variables), followed by the properties established about it.

    Conventions.
    - Python [int] is [Z]; [len] is a [nat].
    - Token identifiers are [Z]; words are [string]s.
    - A numpy matrix is the list of its rows.  The float64 buffer that
      [np.zeros] allocates is converted back by [torch.LongTensor]; both
      conversions are exact on token identifiers, so entries are [Z].
    - A validation metric is a rational number [Q]: every finite float is
      one, and the comparison of the source is the order of [Q] on them.
    - A Python exception is a constructor of [exn]; a call that may raise
      returns a [result]. *)

From Stdlib Require Import ZArith QArith String List Lia.
From stdpp Require Import gmap strings list fin_maps.

Local Open Scope string_scope.
Local Open Scope list_scope.
Local Open Scope Z_scope.

(** ** Exceptions and results *)

Inductive exn : Type :=
  | ValueError (msg : string)
  | IndexError (msg : string)
  | TypeError (msg : string)
  (* TypeError: f() missing n required positional arguments: ... *)
  | TypeError_missing (fname : string) (missing : list string)
  (* TypeError: f() takes n positional arguments but m were given *)
  | TypeError_too_many (fname : string) (takes given : nat)
  | ZeroDivisionError
  | FileNotFoundError (path : string)
  | IOError (path : string)
  | KeyError (key : Z)
  | AttributeError (msg : string)
  | SystemExit (code : Z).

Inductive result (A : Type) : Type :=
  | Ok (a : A)
  | Raise (e : exn).
Arguments Ok {A} a.
Arguments Raise {A} e.

#[global] Instance result_ret : MRet result := fun A a => Ok a.
#[global] Instance result_bind : MBind result := fun A B k r =>
  match r with
  | Ok a => k a
  | Raise e => Raise e
  end.

#[global] Instance result_fmap : FMap result := fun A B f r =>
  match r with
  | Ok a => Ok (f a)
  | Raise e => Raise e
  end.

Definition is_ok {A} (r : result A) : bool :=
  match r with Ok _ => true | Raise _ => false end.

(** ** Python primitives used by the source *)

Module Py.

(** The index adjustment of a slice bound (step 1) against length [n]:
    a negative bound counts from the end, and both are clipped. *)
Definition clip (n : nat) (i : Z) : nat :=
  if i <? 0 then Z.to_nat (Z.max 0 (i + Z.of_nat n))
  else Z.to_nat (Z.min i (Z.of_nat n)).

(** [l[lo:hi]]; [None] is an omitted bound. *)
Definition slice {A} (lo hi : option Z) (l : list A) : list A :=
  let n := length l in
  let start := match lo with None => 0%nat | Some i => clip n i end in
  let stop := match hi with None => n | Some i => clip n i end in
  take (stop - start) (drop start l).

(** [max(iterable)]: the first item, replaced by each later item that
    compares greater. *)
Fixpoint max_from {A} (gt : A -> A -> bool) (cur : A) (l : list A) : A :=
  match l with
  | [] => cur
  | x :: r => max_from gt (if gt x cur then x else cur) r
  end.

Definition max {A} (gt : A -> A -> bool) (l : list A) : result A :=
  match l with
  | [] => Raise (ValueError "max() arg is an empty sequence")
  | x :: r => Ok (max_from gt x r)
  end.

Definition gt_nat (a b : nat) : bool := (b <? a)%nat.

(** [l[i]] for a Python index. *)
Definition getitem {A} (l : list A) (i : Z) : result A :=
  let n := Z.of_nat (length l) in
  let j := if i <? 0 then i + n else i in
  if (j <? 0) || (n <=? j) then Raise (IndexError "list index out of range")
  else match l !! Z.to_nat j with
       | Some x => Ok x
       | None => Raise (IndexError "list index out of range")
       end.

(** [l[i] = x]. *)
Definition setitem {A} (l : list A) (i : Z) (x : A) : result (list A) :=
  let n := Z.of_nat (length l) in
  let j := if i <? 0 then i + n else i in
  if (j <? 0) || (n <=? j)
  then Raise (IndexError "list assignment index out of range")
  else Ok (<[Z.to_nat j := x]> l).

(** [sep.join(ws)]. *)
Fixpoint join (sep : string) (ws : list string) : string :=
  match ws with
  | [] => ""
  | [w] => w
  | w :: r => (w ++ sep ++ join sep r)%string
  end.

End Py.

(** ** numpy: zero matrices and prefix assignment of a row *)

Module Np.

Abbreviation matrix := (list (list Z)).

(** [np.zeros((rows, cols))] *)
Definition zeros (rows cols : nat) : matrix :=
  replicate rows (replicate cols 0).

Definition width (rows : nat) (m : matrix) (w : nat) : Prop :=
  length m = rows /\ Forall (fun r => length r = w) m.

(** [m[i, :n] = xs].  The slice [m[i, :n]] has [min n (width)] entries;
    [xs] must have that many entries, or one entry that is broadcast. *)
Definition set_prefix (m : matrix) (i n : nat) (xs : list Z) : result matrix :=
  match m !! i with
  | None => Raise (IndexError "index is out of bounds for axis 0")
  | Some row =>
      let k := Nat.min n (length row) in
      if decide (length xs = k) then Ok (<[i := xs ++ drop k row]> m)
      else match xs with
           | [x] => Ok (<[i := replicate k x ++ drop k row]> m)
           | _ => Raise (ValueError "could not broadcast input array")
           end
  end.

End Np.

(** ** The batch padder: [sent_padding] *)

Record padded : Type := mkPadded {
  padded_src_sents : Np.matrix;
  src_lens : list nat;
  padded_Yinput : Np.matrix;
  padded_Ytarget : Np.matrix;
  tgt_lens : list nat
}.

(** The body of the [for i, sent in enumerate(zip(src_sents, tgt_sents))]
    loop, from index [i] on. *)
Fixpoint sent_padding_loop (i : nat) (pairs : list (list Z * list Z))
    (st : padded) : result padded :=
  match pairs with
  | [] => Ok st
  | sent :: rest =>
      let src_sent := sent.1 in
      let y_input := Py.slice None (Some (-1)) sent.2 in
      let y_target := Py.slice (Some 1) None sent.2 in
      let src_len := length src_sent in
      let tgt_len := length y_input in
      ps ← Np.set_prefix (padded_src_sents st) i src_len src_sent;
      pi ← Np.set_prefix (padded_Yinput st) i tgt_len y_input;
      pt ← Np.set_prefix (padded_Ytarget st) i tgt_len y_target;
      sent_padding_loop (S i) rest
        (mkPadded ps (src_lens st ++ [src_len]) pi pt (tgt_lens st ++ [tgt_len]))
  end.

Definition sent_padding (src_sents tgt_sents : list (list Z)) : result padded :=
  let batch_size := length src_sents in
  max_src_len ← Py.max Py.gt_nat (length <$> src_sents);
  max_tgt_len ← Py.max Py.gt_nat (length <$> tgt_sents);
  sent_padding_loop 0 (zip src_sents tgt_sents)
    (mkPadded (Np.zeros batch_size max_src_len) []
              (Np.zeros batch_size max_tgt_len)
              (Np.zeros batch_size max_tgt_len) []).

(** ** The corpus-level scorer: [compute_corpus_level_bleu_score]

    [corpus_bleu] is nltk's; it is applied to the references, each wrapped
    in a singleton list, and to the hypotheses as they were passed. *)

Section Scorer.
Context {H bleu : Type}.
Variable corpus_bleu : list (list (list string)) -> list H -> bleu.

Definition compute_corpus_level_bleu_score
    (references : list (list string)) (hypotheses : list H) : result bleu :=
  ref0 ← Py.getitem references 0;
  tok0 ← Py.getitem ref0 0;
  let references :=
    if String.eqb tok0 "<s>"
    then (fun ref => Py.slice (Some 1) (Some (-1)) ref) <$> references
    else references in
  mret (corpus_bleu ((fun ref => [ref]) <$> references) hypotheses).
End Scorer.

(** ** The collaborators

    Everything [nmt.py] imports from the rest of the repository or from a
    library and calls in the code modelled here:
    the parameters of a sub-network ([state_dict]), the vocabulary,
    [read_corpus], [batch_iter], the encoder and decoder forward passes, the
    loss, and nltk's [corpus_bleu]. *)

Class Collaborators : Type := {
  state_dict : Type;
  Vocab : Type;
  bleu : Type;
  encodings : Type;
  decoder_outputs : Type;
  (* utils.read_corpus(path, source=...) *)
  read_corpus : string -> string -> result (list (list string));
  (* pickle.load(open(path, 'rb')) *)
  load_vocab : string -> result Vocab;
  (* utils.batch_iter(data, batch_size): the batches it yields, each with
     the original indices of its examples *)
  batch_iter : list (list string * list string) -> Z ->
               list (list (list string) * list (list string) * list Z);
  (* len(vocab.src), len(vocab.tgt) *)
  nvocab_src : Vocab -> nat;
  nvocab_tgt : Vocab -> nat;
  (* vocab.src.words2indices, vocab.tgt.words2indices *)
  src_words2indices : Vocab -> list (list string) -> list (list Z);
  tgt_words2indices : Vocab -> list (list string) -> list (list Z);
  (* vocab.tgt.id2word[i] *)
  tgt_id2word : Vocab -> Z -> result string;
  (* Encoder(...), Decoder(...): freshly initialised parameters *)
  Encoder_init : nat -> Z -> Z -> Q -> state_dict;
  Decoder_init : nat -> Z -> Z -> Q -> state_dict;
  (* self.encoder(src_sents, input_lengths) *)
  encoder_forward : state_dict -> Np.matrix -> list nat -> encodings * encodings;
  (* self.decoder(tgt_input, init_state, src_encodings, stage="valid") *)
  decoder_forward_valid : state_dict -> Np.matrix -> encodings -> encodings ->
                          decoder_outputs * encodings * list (list Z);
  (* loss.reset(); loss.eval_batch(...) for every step; loss.get_loss() *)
  nll_loss : decoder_outputs -> Np.matrix -> Q;
  (* nltk.translate.bleu_score.corpus_bleu *)
  corpus_bleu : forall H : Type, list (list (list string)) -> list H -> bleu
}.

(** ** Hypotheses and [NMT.beam_search] *)

Record hypothesis : Type := mkHypothesis {
  value : list string;
  score : Q
}.

(** ** The command line

    The [docopt] dictionary; the integer and float options are the values
    [int(...)] and [float(...)] give for them, an absent option is [None]. *)

Record Args : Type := mkArgs {
  arg_train_src : string;
  arg_train_tgt : string;
  arg_dev_src : string;
  arg_dev_tgt : string;
  arg_vocab : string;
  arg_batch_size : Z;
  arg_embed_size : Z;
  arg_hidden_size : Z;
  arg_clip_grad : Q;
  arg_log_every : Z;
  arg_valid_niter : Z;
  arg_max_epoch : Z;
  arg_patience : Z;
  arg_max_num_trial : Z;
  arg_dropout : Q;
  arg_save_to : option string;
  arg_MODEL_PATH : string;
  arg_TEST_SOURCE_FILE : string;
  arg_TEST_TARGET_FILE : option string;
  arg_OUTPUT_FILE : string;
  arg_beam_size : Z;
  arg_max_decoding_time_step : Z
}.

(** [valid_metric > m] on metrics *)
Definition gt_metric (a b : Q) : bool := negb (Qle_bool a b).

Section Program.
Context `{C : Collaborators}.

(** *** The model object *)

Record NMT : Type := mkNMT {
  vocab : Vocab;
  encoder : state_dict;
  decoder : state_dict;
  (* the [training] flag of the two sub-networks *)
  encoder_training : bool;
  decoder_training : bool;
  (* how often [scheduler.step()] ran: StepLR(step_size=1, gamma=0.5) *)
  scheduler_steps : nat
}.

(** The learning rate of the optimizer: [Adam(lr=0.0001)] halved by
    every scheduler step. *)
Definition learning_rate (self : NMT) : Q :=
  ((1 # 10000) * (1 # 2) ^ Z.of_nat (scheduler_steps self))%Q.

(** *** The outside world: files and what the process printed *)

Inductive event : Type :=
  (* torch.save wrote [sd] to [path] *)
  | TorchSave (path : string) (sd : state_dict)
  | PrintBeginTraining
  | PrintBeginValidation
  | PrintValidation (train_iter : Z) (dev_ppl : Q)
  | PrintSaveBest (path : string)
  | PrintHitPatience (patience : Z)
  | PrintHitTrial (num_trial : Z)
  | PrintEarlyStop
  | PrintLoadAndDecay
  | PrintRestoreOptimizers
  | PrintMaxEpoch
  | PrintBleuScore (b : bleu)
  | PrintLoadModelFrom (path : string)
  | PrintCorpusBLEU (b : bleu).

(** Files written by [torch.save] and text files are kept apart, each by
    path; the code modelled here never uses one path for both.  [trace]
    is what the process printed and saved so far, oldest first. *)
Record world : Type := mkWorld {
  checkpoints : gmap string state_dict;
  text_files : gmap string string;
  trace : list event
}.

(** State (the world) and exceptions. *)
Definition M (A : Type) : Type := world -> world * result A.

Definition ret {A} (a : A) : M A := fun w => (w, Ok a).
Definition bind {A B} (m : M A) (k : A -> M B) : M B := fun w =>
  match m w with
  | (w', Ok a) => k a w'
  | (w', Raise e) => (w', Raise e)
  end.
Definition raise {A} (e : exn) : M A := fun w => (w, Raise e).
Definition lift {A} (r : result A) : M A := fun w => (w, r).
Definition print (e : event) : M unit := fun w =>
  (mkWorld (checkpoints w) (text_files w) (trace w ++ [e]), Ok tt).
(** [exit(0)] *)
Definition exit {A} (code : Z) : M A := raise (SystemExit code).

(** [torch.save(sd, path)] and [torch.load(path)] *)
Definition torch_save (sd : state_dict) (path : string) : M unit := fun w =>
  (mkWorld (<[path := sd]> (checkpoints w)) (text_files w)
           (trace w ++ [TorchSave path sd]), Ok tt).
Definition torch_load (path : string) : M state_dict := fun w =>
  match checkpoints w !! path with
  | Some sd => (w, Ok sd)
  | None => (w, Raise (FileNotFoundError path))
  end.

(** [open(path, 'a')], [open(path, 'w')] and [f.write(s)] *)
Definition open_append (path : string) : M unit := fun w =>
  (mkWorld (checkpoints w)
           (<[path := default "" (text_files w !! path)]> (text_files w))
           (trace w), Ok tt).
Definition open_write (path : string) : M unit := fun w =>
  (mkWorld (checkpoints w) (<[path := ""]> (text_files w)) (trace w), Ok tt).
Definition write (path : string) (s : string) : M unit := fun w =>
  (mkWorld (checkpoints w)
           (<[path := (default "" (text_files w !! path) ++ s)%string]> (text_files w))
           (trace w), Ok tt).

End Program.

Notation "'let*' x := c 'in' k" := (bind c (fun x => k))
  (at level 10, x pattern, c at level 100, k at level 200).
Notation "c ;;; k" := (bind c (fun _ => k))
  (at level 100, k at level 200, right associativity).

Section Methods.
Context `{C : Collaborators}.

(** *** [NMT.load], [NMT.save], [NMT.__init__] *)

Definition NMT_load (self : NMT) (model_path : string) : M NMT :=
  let* enc := torch_load (model_path ++ "-encoder")%string in
  let self := mkNMT (vocab self) enc (decoder self) (encoder_training self)
                    (decoder_training self) (scheduler_steps self) in
  let* dec := torch_load (model_path ++ "-decoder")%string in
  let self := mkNMT (vocab self) (encoder self) dec (encoder_training self)
                    (decoder_training self) (scheduler_steps self) in
  (* self.encoder.eval(); self.decoder.eval() *)
  ret (mkNMT (vocab self) (encoder self) (decoder self) false false
             (scheduler_steps self)).

Definition NMT_save (self : NMT) (model_save_path : string) : M unit :=
  torch_save (encoder self) (model_save_path ++ "-encoder")%string ;;;
  torch_save (decoder self) (model_save_path ++ "-decoder")%string.

Definition NMT_init (embed_size hidden_size : Z) (vocab : Vocab)
    (dropout_rate : Q) (keep_train : bool) : M NMT :=
  let nvocab_src := nvocab_src vocab in
  let nvocab_tgt := nvocab_tgt vocab in
  let self :=
    mkNMT vocab
          (Encoder_init nvocab_src hidden_size embed_size dropout_rate)
          (Decoder_init nvocab_tgt (2 * hidden_size) embed_size dropout_rate)
          true true 0 in
  let* self := (if keep_train then NMT_load self "model" else ret self) in
  ret self.

(** *** [NMT.encode], [NMT.decode_without_bp] *)

Definition NMT_encode (self : NMT) (src_sents : Np.matrix)
    (input_lengths : list nat) : encodings * encodings :=
  encoder_forward (encoder self) src_sents input_lengths.

Definition NMT_decode_without_bp (self : NMT) (src_encodings : encodings)
    (decoder_init_state : encodings) (tgt_sents : Np.matrix * Np.matrix)
    : Q * list (list Z) :=
  let '(tgt_input, tgt_target) := tgt_sents in
  let '(decoder_outputs, decoder_hidden, symbols) :=
    decoder_forward_valid (decoder self) tgt_input decoder_init_state
                          src_encodings in
  let scores := nll_loss decoder_outputs tgt_target in
  (scores, symbols).

(** *** [NMT.beam_search]

    What a Python name can hold in the decoding driver. *)

Inductive pyval : Type :=
  | VNone
  | VInt (n : Z)
  | VStr (s : string)
  | VModel (m : NMT)
  | VHyp (h : hypothesis)
  | VWords (ws : list string)
  | VHypotheses (l : list hypothesis).

Definition NMT_beam_search (self : NMT) (src_sent : list string)
    (beam_size max_decoding_time_step : Z) : pyval :=
  let hypotheses := VInt 0 in
  hypotheses.

(** *** [NMT.evaluate_ppl] *)

Definition newline : string := String (Ascii.ascii_of_nat 10) EmptyString.

(** [for idx in sent]: the words of the tokens before the first token 2 *)
Fixpoint word_seq_loop (self : NMT) (sent : list Z) (word_seq : list string)
    : result (list string) :=
  match sent with
  | [] => Ok word_seq
  | idx :: rest =>
      if idx =? 2 then Ok word_seq
      else w ← tgt_id2word (vocab self) idx;
           word_seq_loop self rest (word_seq ++ [w])
  end.

(** [for sent in symbols], with the running [index] *)
Fixpoint symbols_loop (self : NMT) (orig_indices : list Z)
    (symbols : list (list Z)) (index : Z)
    (hyp_corpus : list (list string))
    (batch_hyp_orderd : list (option (list string)))
    : result (list (list string) * list (option (list string))) :=
  match symbols with
  | [] => Ok (hyp_corpus, batch_hyp_orderd)
  | sent :: rest =>
      word_seq ← word_seq_loop self sent [];
      let hyp_corpus := hyp_corpus ++ [word_seq] in
      oi ← Py.getitem orig_indices index;
      batch_hyp_orderd ← Py.setitem batch_hyp_orderd oi (Some word_seq);
      symbols_loop self orig_indices rest (index + 1) hyp_corpus batch_hyp_orderd
  end.

Record eval_acc : Type := mkEvalAcc {
  ref_corpus : list (list string);
  hyp_corpus : list (list string);
  hyp_corpus_ordered : list (option (list string));
  cum_loss : Q;
  count : Z
}.

(** Lines 287-291: indices, padding, encoding, decoding without
    back-propagation; the result is [(scores, symbols)]. *)
Definition batch_forward (self : NMT) (src_sents tgt_sents : list (list string))
    : result (Q * list (list Z)) :=
  let src_sents := src_words2indices (vocab self) src_sents in
  let tgt_sents := tgt_words2indices (vocab self) tgt_sents in
  p ← sent_padding src_sents tgt_sents;
  let '(src_encodings, decoder_init_state) :=
    NMT_encode self (padded_src_sents p) (src_lens p) in
  Ok (NMT_decode_without_bp self src_encodings decoder_init_state
                            (padded_Yinput p, padded_Ytarget p)).

(** [for src_sents, tgt_sents, orig_indices in batch_iter(...)] *)
Fixpoint batches_loop (self : NMT)
    (batches : list (list (list string) * list (list string) * list Z))
    (acc : eval_acc) : result eval_acc :=
  match batches with
  | [] => Ok acc
  | (src_sents, tgt_sents, orig_indices) :: rest =>
      let ref_corpus := ref_corpus acc ++ tgt_sents in
      let actual_size := length src_sents in
      fwd ← batch_forward self src_sents tgt_sents;
      let '(scores, symbols) := fwd in
      let index := 0 in
      let batch_hyp_orderd := replicate (length symbols) None in
      r ← symbols_loop self orig_indices symbols index (hyp_corpus acc)
                       batch_hyp_orderd;
      batches_loop self rest
        (mkEvalAcc ref_corpus r.1 (hyp_corpus_ordered acc ++ r.2)
                   (cum_loss acc + scores)%Q (count acc + 1))
  end.

(** [for r, h in zip(ref_corpus, hyp_corpus_ordered): f.write(...)] *)
Fixpoint write_loop (path : string)
    (pairs : list (list string * option (list string))) : M unit :=
  match pairs with
  | [] => ret tt
  | (r, h) :: rest =>
      match h with
      | None => raise (TypeError "can only join an iterable")
      | Some h =>
          write path (Py.join " " h ++ newline)%string ;;;
          write_loop path rest
      end
  end.

Definition evaluate_ppl (self : NMT)
    (dev_data : list (list string * list string)) (batch_size : Z) : M Q :=
  let* acc := lift (batches_loop self (batch_iter dev_data batch_size)
                                 (mkEvalAcc [] [] [] 0%Q 0)) in
  open_append "decode.txt" ;;;
  write_loop "decode.txt" (zip (ref_corpus acc) (hyp_corpus_ordered acc)) ;;;
  let* bleu := lift (compute_corpus_level_bleu_score
                       (corpus_bleu (list string))
                       (ref_corpus acc) (hyp_corpus acc)) in
  print (PrintBleuScore bleu) ;;;
  if count acc =? 0 then raise ZeroDivisionError
  else ret (cum_loss acc / inject_Z (count acc))%Q.

(** *** [train]: start-up (lines 401-430) *)

Record train_state : Type := mkTrainState {
  train_data : list (list string * list string);
  dev_data : list (list string * list string);
  model_save_path : string;
  model : NMT;
  num_trial : Z;
  train_iter : Z;
  patience : Z;
  epoch : Z;
  valid_num : Z;
  hist_valid_scores : list Q
}.

Definition train_startup (args : Args) : M train_state :=
  let* train_data_src := lift (read_corpus (arg_train_src args) "src") in
  let* train_data_tgt := lift (read_corpus (arg_train_tgt args) "tgt") in
  let* dev_data_src := lift (read_corpus (arg_dev_src args) "src") in
  let* dev_data_tgt := lift (read_corpus (arg_dev_tgt args) "tgt") in
  let train_data := zip train_data_src train_data_tgt in
  let dev_data := zip dev_data_src dev_data_tgt in
  (* model_save_path = args['--save-to'] is commented out in the source *)
  let model_save_path := "model" in
  let* vocab := lift (load_vocab (arg_vocab args)) in
  let* model := NMT_init (arg_embed_size args) (arg_hidden_size args) vocab
                         (arg_dropout args) true in
  print PrintBeginTraining ;;;
  ret (mkTrainState train_data dev_data model_save_path model 0 0 0 0 0 []).

(** *** [train]: the decision after a validation *)

Definition set_patience (st : train_state) (p : Z) : train_state :=
  mkTrainState (train_data st) (dev_data st) (model_save_path st) (model st)
               (num_trial st) (train_iter st) p (epoch st) (valid_num st)
               (hist_valid_scores st).

Definition set_num_trial (st : train_state) (n : Z) : train_state :=
  mkTrainState (train_data st) (dev_data st) (model_save_path st) (model st)
               n (train_iter st) (patience st) (epoch st) (valid_num st)
               (hist_valid_scores st).

Definition set_model (st : train_state) (m : NMT) : train_state :=
  mkTrainState (train_data st) (dev_data st) (model_save_path st) m
               (num_trial st) (train_iter st) (patience st) (epoch st)
               (valid_num st) (hist_valid_scores st).

Definition set_hist (st : train_state) (h : list Q) : train_state :=
  mkTrainState (train_data st) (dev_data st) (model_save_path st) (model st)
               (num_trial st) (train_iter st) (patience st) (epoch st)
               (valid_num st) h.

(** [model.scheduler.step()] *)
Definition scheduler_step (m : NMT) : NMT :=
  mkNMT (vocab m) (encoder m) (decoder m) (encoder_training m)
        (decoder_training m) (S (scheduler_steps m)).

(** [len(hist_valid_scores) == 0 or valid_metric > max(hist_valid_scores)] *)
Definition is_better (hist_valid_scores : list Q) (valid_metric : Q)
    : result bool :=
  if (length hist_valid_scores =? 0)%nat then Ok true
  else m ← Py.max gt_metric hist_valid_scores; Ok (gt_metric valid_metric m).

(** Lines 490-521: the checkpoint, patience and trial bookkeeping. *)
Definition validation_update (args : Args) (valid_metric : Q)
    (st : train_state) : M train_state :=
  let* is_better := lift (is_better (hist_valid_scores st) valid_metric) in
  let st := set_hist st (hist_valid_scores st ++ [valid_metric]) in
    (if is_better : bool then
       let st := set_patience st 0 in
       print (PrintSaveBest (model_save_path st)) ;;;
       NMT_save (model st) (model_save_path st) ;;;
       ret st
     else if patience st <? arg_patience args then
       let st := set_patience st (patience st + 1) in
       print (PrintHitPatience (patience st)) ;;;
       if patience st =? arg_patience args then
         let st := set_num_trial st (num_trial st + 1) in
         print (PrintHitTrial (num_trial st)) ;;;
         (if num_trial st =? arg_max_num_trial args
          then print PrintEarlyStop ;;; exit 0
          else ret tt) ;;;
         let st := set_model st (scheduler_step (model st)) in
         print PrintLoadAndDecay ;;;
         let* m := NMT_load (model st) (model_save_path st) in
         let st := set_model st m in
         print PrintRestoreOptimizers ;;;
         ret (set_patience st 0)
       else ret st
     else ret st).

(** Lines 490-525: the bookkeeping, then the check of the epoch limit. *)
Definition validation_decision (args : Args) (valid_metric : Q)
    (st : train_state) : M train_state :=
  let* st := validation_update args valid_metric st in
  if epoch st =? arg_max_epoch args
  then print PrintMaxEpoch ;;; exit 0
  else ret st.

(** Successive validations; the training steps between two of them
    change the model parameters and the iteration counters only. *)
Fixpoint validations (args : Args) (metrics : list Q) (st : train_state)
    : M train_state :=
  match metrics with
  | [] => ret st
  | valid_metric :: rest =>
      let* st := validation_decision args valid_metric st in
      validations args rest st
  end.

(** *** The decoding driver: [beam_search] and [decode] *)

Definition type_name (v : pyval) : string :=
  match v with
  | VNone => "NoneType"
  | VInt _ => "int"
  | VStr _ => "str"
  | VModel _ => "NMT"
  | VHyp _ => "Hypothesis"
  | VWords _ => "list"
  | VHypotheses _ => "list"
  end.

Definition no_attribute {A} (v : pyval) (attr : string) : result A :=
  Raise (AttributeError
           ("'" ++ type_name v ++ "' object has no attribute '" ++ attr ++ "'")%string).

(** [model.training]: [NMT] derives from [object] and defines no such
    attribute, and no other value has it. *)
Definition get_training (model : pyval) : result pyval :=
  no_attribute model "training".

(** [model.beam_search(src_sent, beam_size=..., max_decoding_time_step=...)] *)
Definition call_beam_search (model : pyval) (src_sent : list string)
    (beam_size max_decoding_time_step : Z) : result pyval :=
  match model with
  | VModel m => Ok (NMT_beam_search m src_sent beam_size max_decoding_time_step)
  | _ => no_attribute model "beam_search"
  end.

Fixpoint beam_search_loop (model : pyval) (test_data_src : list (list string))
    (beam_size max_decoding_time_step : Z) (hypotheses : list pyval)
    : result (list pyval) :=
  match test_data_src with
  | [] => Ok hypotheses
  | src_sent :: rest =>
      example_hyps ← call_beam_search model src_sent beam_size
                                      max_decoding_time_step;
      beam_search_loop model rest beam_size max_decoding_time_step
                       (hypotheses ++ [example_hyps])
  end.

Definition beam_search (model : pyval) (test_data_src : list (list string))
    (beam_size max_decoding_time_step : Z) : result (list pyval) :=
  was_training ← get_training model;
  beam_search_loop model test_data_src beam_size max_decoding_time_step [].

(** The positional binding of a call of a function of two parameters. *)
Definition bind_two (fname p1 p2 : string) (actuals : list pyval)
    : result (pyval * pyval) :=
  match actuals with
  | [] => Raise (TypeError_missing fname [p1; p2])
  | [a] => Raise (TypeError_missing fname [p2])
  | [a; b] => Ok (a, b)
  | _ => Raise (TypeError_too_many fname 2 (length actuals))
  end.

(** [NMT.load] looked up on the class: the plain function
    [load(self, model_path)] ([@staticmethod] is commented out), which
    returns nothing. *)
Definition NMT_load_function (actuals : list pyval) : M pyval :=
  let* bound := lift (bind_two "load" "self" "model_path" actuals) in
  match bound with
  | (VModel self, VStr model_path) => NMT_load self model_path ;;; ret VNone
  | (VModel self, _) => raise (TypeError "unsupported operand type(s) for +")
  | (self, _) => lift (no_attribute self "encoder")
  end.

(** [hyps[0]] *)
Definition first_item (hyps : pyval) : result pyval :=
  match hyps with
  | VHypotheses l => VHyp <$> Py.getitem l 0
  | VWords l => VStr <$> Py.getitem l 0
  | VStr s =>
      match s with
      | EmptyString => Raise (IndexError "string index out of range")
      | String c _ => Ok (VStr (String c EmptyString))
      end
  | VHyp h => Ok (VWords (value h))
  | _ => Raise (TypeError ("'" ++ type_name hyps ++ "' object is not subscriptable")%string)
  end.

(** [top_hyp.value] *)
Definition get_value (top_hyp : pyval) : result (list string) :=
  match top_hyp with
  | VHyp h => Ok (value h)
  | _ => no_attribute top_hyp "value"
  end.

Fixpoint top_hypotheses_loop (hypotheses : list pyval) : result (list pyval) :=
  match hypotheses with
  | [] => Ok []
  | hyps :: rest =>
      h ← first_item hyps; r ← top_hypotheses_loop rest; Ok (h :: r)
  end.

Fixpoint output_loop (path : string)
    (pairs : list (list string * pyval)) : M unit :=
  match pairs with
  | [] => ret tt
  | (src_sent, hyps) :: rest =>
      let* top_hyp := lift (first_item hyps) in
      let* v := lift (get_value top_hyp) in
      let hyp_sent := Py.join " " v in
      write path (hyp_sent ++ newline)%string ;;;
      output_loop path rest
  end.

(** The truth value of [args['TEST_TARGET_FILE']] *)
Definition given (o : option string) : option string :=
  match o with
  | Some EmptyString => None
  | _ => o
  end.

Definition decode (args : Args) : M unit :=
  let* test_data_src := lift (read_corpus (arg_TEST_SOURCE_FILE args) "src") in
  let* test_data_tgt :=
    match given (arg_TEST_TARGET_FILE args) with
    | Some f => lift (read_corpus f "tgt")
    | None => ret []
    end in
  print (PrintLoadModelFrom (arg_MODEL_PATH args)) ;;;
  let* model := NMT_load_function [VStr (arg_MODEL_PATH args)] in
  let* hypotheses := lift (beam_search model test_data_src (arg_beam_size args)
                                       (arg_max_decoding_time_step args)) in
  match given (arg_TEST_TARGET_FILE args) with
  | Some _ =>
      let* top_hypotheses := lift (top_hypotheses_loop hypotheses) in
      let* bleu_score := lift (compute_corpus_level_bleu_score
                                 (corpus_bleu pyval) test_data_tgt top_hypotheses) in
      print (PrintCorpusBLEU bleu_score)
  | None => ret tt
  end ;;;
  open_write (arg_OUTPUT_FILE args) ;;;
  output_loop (arg_OUTPUT_FILE args) (zip test_data_src hypotheses).

End Methods.

(** ** Statement vocabulary *)

(** A sentence followed by zeros up to width [w]. *)
Definition pad_row (w : nat) (xs : list Z) : list Z :=
  xs ++ replicate (w - length xs) 0.

(** The events the process added to the trace between two worlds. *)
Definition new_events `{C : Collaborators} (w w' : world) : list event :=
  drop (length (trace w)) (trace w').

(** A checkpoint file was written between two worlds. *)
Definition checkpoint_saved `{C : Collaborators} (w w' : world) : Prop :=
  exists path sd, TorchSave path sd ∈ new_events w w'.

(** A world after the process printed [evs]. *)
Definition printed `{C : Collaborators} (w : world) (evs : list event) : world :=
  mkWorld (checkpoints w) (text_files w) (trace w ++ evs).

(** The metric lies strictly above every metric of the history: it exceeds
    the running maximum, or the history is empty. *)
Definition improving (hist : list Q) (m : Q) : Prop :=
  Forall (fun h => (h < m)%Q) hist.

(** Some metric of the history is at least as large. *)
Definition non_improving (hist : list Q) (m : Q) : Prop :=
  Exists (fun h => (m <= h)%Q) hist.

(** An event that, if it is a save, is one of the two files of the
    checkpoint [p]. *)
Definition saves_under `{C : Collaborators} (p : string) (ev : event) : Prop :=
  match ev with
  | TorchSave path _ =>
      path = (p ++ "-encoder")%string \/ path = (p ++ "-decoder")%string
  | _ => True
  end.

(** [w'] extends [w] by events that save under [p] only, and differs from
    it in no file but the two files of the checkpoint [p]. *)
Definition touches_only `{C : Collaborators} (p : string) (w w' : world)
    : Prop :=
  (exists evs, trace w' = trace w ++ evs /\ Forall (saves_under p) evs) /\
  text_files w' = text_files w /\
  forall k, k <> (p ++ "-encoder")%string -> k <> (p ++ "-decoder")%string ->
            checkpoints w' !! k = checkpoints w !! k.

(** What the loop of [train] does to the state and to the world between
    two validation decisions (lines 435-488): the training steps change the
    parameters and the mode of the sub-networks and the counters of
    iterations, epochs and validations; the evaluation writes text and
    both print.  No checkpoint is written, and the counters of the
    schedule, the history, the scheduler, the vocabulary, the data and the
    checkpoint path are not assigned to. *)
Definition training_between `{C : Collaborators}
    (st : train_state) (w : world) (st' : train_state) (w' : world) : Prop :=
  train_data st' = train_data st /\ dev_data st' = dev_data st /\
  model_save_path st' = model_save_path st /\
  num_trial st' = num_trial st /\ patience st' = patience st /\
  hist_valid_scores st' = hist_valid_scores st /\
  vocab (model st') = vocab (model st) /\
  scheduler_steps (model st') = scheduler_steps (model st) /\
  checkpoints w' = checkpoints w /\
  exists evs, trace w' = trace w ++ evs /\
              Forall (fun ev => forall path sd, ev <> TorchSave path sd) evs.

(** A stretch of the loop of [train] through the validations with the
    metrics [ms], each of which returns: from state [st] in world [w] to
    state [st'] in world [w']. *)
Inductive training_run `{C : Collaborators} (args : Args)
    : list Q -> train_state -> world -> train_state -> world -> Prop :=
  | run_nil st w : training_run args [] st w st w
  | run_cons m ms st w st0 w0 st1 w1 st' w' :
      training_between st w st0 w0 ->
      validation_decision args m st0 w0 = (w1, Ok st1) ->
      training_run args ms st1 w1 st' w' ->
      training_run args (m :: ms) st w st' w'.

(** The text a list of hypotheses becomes in the decoding file. *)
Definition lines_of (hyps : list (list string)) : string :=
  foldr (fun h acc => ((Py.join " " h ++ newline) ++ acc)%string) "" hyps.

(** [ordered] holds the hypotheses [hyps] of a batch at their original
    positions: the hypothesis of row [j] stands at position
    [orig_indices[j]]. *)
Definition restored (orig_indices : list Z) (hyps ordered : list (list string))
    : Prop :=
  length ordered = length hyps /\
  forall (j i : nat) ws,
    orig_indices !! j = Some (Z.of_nat i) -> hyps !! j = Some ws ->
    ordered !! i = Some ws.

(** A batch on which the evaluation goes through, with the loss [r.1] and
    the hypotheses [r.2] it yields: padding succeeds, the decoder returns
    one row of symbols per target sentence, every symbol before the first
    end token has a word, and the original indices are a permutation of
    the positions of the batch. *)
Definition batch_evaluates `{C : Collaborators} (self : NMT)
    (batch : list (list string) * list (list string) * list Z)
    (r : Q * list (list string)) : Prop :=
  exists symbols,
    batch_forward self batch.1.1 batch.1.2 = Ok (r.1, symbols) /\
    Forall2 (fun sent ws => word_seq_loop self sent [] = Ok ws) symbols r.2 /\
    length batch.1.2 = length symbols /\
    batch.2 ≡ₚ Z.of_nat <$> seq 0 (length symbols).

(** [w'] differs from [w] at most in the text file [path], which is then
    its content in [w] (nothing, if it was not there) with text appended. *)
Definition appends_to `{C : Collaborators} (path : string) (w w' : world)
    : Prop :=
  checkpoints w' = checkpoints w /\
  (forall p, p <> path -> text_files w' !! p = text_files w !! p) /\
  (text_files w' !! path = text_files w !! path \/
   exists s, text_files w' !! path
             = Some (default "" (text_files w !! path) ++ s)%string).

(** ** A concrete set of collaborators

    Small stand-ins on which the definitions above can be run: parameters
    are integers, a batch iterator that yields the data as one batch in
    reverse order, a decoder that echoes its input. *)

Module Fixture.

Definition reversed_batch (data : list (list string * list string))
    (batch_size : Z)
    : list (list (list string) * list (list string) * list Z) :=
  match data with
  | [] => []
  | _ => [((rev data).*1, (rev data).*2,
           rev (Z.of_nat <$> seq 0 (length data)))]
  end.

Definition word2index (w : string) : Z :=
  if String.eqb w "<s>" then 1
  else if String.eqb w "</s>" then 2
  else 3 + Z.of_nat (String.length w).

Definition index2word (i : Z) : result string :=
  if i <? 0 then Raise (KeyError i)
  else if i =? 0 then Ok "<pad>"
  else if i =? 1 then Ok "<s>"
  else if i =? 4 then Ok "x"
  else if i =? 5 then Ok "yy"
  else Ok "<unk>".

Definition corpus (path source : string) : result (list (list string)) :=
  if String.eqb path "missing.txt" then Raise (IOError path)
  else if String.eqb source "src" then Ok [["a"]; ["b"; "c"]]
  else Ok [["<s>"; "x"; "</s>"]; ["<s>"; "yy"; "x"; "</s>"]].

Definition collaborators : Collaborators := {|
  state_dict := Z;
  Vocab := unit;
  bleu := nat;
  encodings := unit;
  decoder_outputs := unit;
  read_corpus := corpus;
  load_vocab := fun _ => Ok tt;
  batch_iter := reversed_batch;
  nvocab_src := fun _ => 10%nat;
  nvocab_tgt := fun _ => 10%nat;
  src_words2indices := fun _ ss =>
    (fun s : list string => word2index <$> s) <$> ss;
  tgt_words2indices := fun _ ss =>
    (fun s : list string => word2index <$> s) <$> ss;
  tgt_id2word := fun _ i => index2word i;
  Encoder_init := fun _ _ _ _ => 0;
  Decoder_init := fun _ _ _ _ => 0;
  encoder_forward := fun _ _ _ => (tt, tt);
  decoder_forward_valid := fun _ tgt_input _ _ => (tt, tt, tgt_input);
  nll_loss := fun _ tgt_target => inject_Z (Z.of_nat (length tgt_target));
  corpus_bleu := fun H refs hyps => length hyps
|}.

Definition args : Args :=
  mkArgs "train.src" "train.tgt" "dev.src" "dev.tgt" "vocab.bin"
         32 256 256 5%Q 10 2000 30 2 5 (1 # 5)%Q (Some "work/best")
         "work/best" "test.src" (Some "test.tgt") "out.txt" 5 70.

Definition nmt : @NMT collaborators :=
  @mkNMT collaborators tt 7 8 true true 0.

Definition empty_world : @world collaborators :=
  @mkWorld collaborators ∅ ∅ [].

(** A world in which a checkpoint was saved under the path ['model']. *)
Definition world_with_model : @world collaborators :=
  @mkWorld collaborators
    (<["model-decoder" := 8]> (<["model-encoder" := 7]> ∅)) ∅ [].

Definition dev : list (list string * list string) :=
  [(["a"], ["<s>"; "x"; "</s>"]); (["b"; "c"], ["<s>"; "yy"; "x"; "</s>"])].

Definition state0 : @train_state collaborators :=
  @mkTrainState collaborators [] dev "model" nmt 0 0 0 1 0 [].

End Fixture.

(** ** A run of four validations

    The metrics -2.0, -1.5, -1.8, -1.9 with the patience limit 2 of
    [Fixture.args]: two improvements, then two validations without. *)

Module Scenario.

Definition metrics : list Q :=
  [(-2 # 1)%Q; (-3 # 2)%Q; (-9 # 5)%Q; (-19 # 10)%Q].

(** The state after the second validation. *)
Definition state2 : @train_state Fixture.collaborators :=
  @mkTrainState Fixture.collaborators [] Fixture.dev "model" Fixture.nmt
    0 0 0 1 0 [(-2 # 1)%Q; (-3 # 2)%Q].

(** A state before the first validation, in the last epoch. *)
Definition state_last_epoch : @train_state Fixture.collaborators :=
  @mkTrainState Fixture.collaborators [] Fixture.dev "model" Fixture.nmt
    0 0 0 30 0 [].

(** The state after the third validation, before the fourth. *)
Definition state3 : @train_state Fixture.collaborators :=
  @mkTrainState Fixture.collaborators [] Fixture.dev "model" Fixture.nmt
    0 0 1 1 0 [(-2 # 1)%Q; (-3 # 2)%Q; (-9 # 5)%Q].

(** The state after the fourth validation. *)
Definition state4 : @train_state Fixture.collaborators :=
  @mkTrainState Fixture.collaborators [] Fixture.dev "model"
    (@mkNMT Fixture.collaborators tt 7 8 false false 1)
    1 0 0 1 0 metrics.

(** The command line of [Fixture.args] with [--patience=0]. *)
Definition args_no_patience : Args :=
  mkArgs "train.src" "train.tgt" "dev.src" "dev.tgt" "vocab.bin"
         32 256 256 5%Q 10 2000 30 0 5 (1 # 5)%Q (Some "work/best")
         "work/best" "test.src" (Some "test.tgt") "out.txt" 5 70.

(** A later state: training changed the parameters since the validation
    with metric -2, and one validation failed to improve. *)
Definition state_trained : @train_state Fixture.collaborators :=
  @mkTrainState Fixture.collaborators [] Fixture.dev "model"
    (@mkNMT Fixture.collaborators tt 70 80 true true 0)
    0 4000 1 1 2 [(-2 # 1)%Q; (-3 # 1)%Q].

End Scenario.

(** * Properties *)

(** ** Slices *)

Lemma slice_init {A} (l : list A) :
  Py.slice None (Some (-1)) l = removelast l.
Proof.
  unfold Py.slice, Py.clip. simpl.
  rewrite Nat.sub_0_r, removelast_firstn_len.
  f_equal. lia.
Qed.

Lemma slice_tail {A} (l : list A) :
  Py.slice (Some 1) None l = tail l.
Proof.
  unfold Py.slice, Py.clip. simpl.
  destruct l as [|a l]; [reflexivity|].
  replace (Z.to_nat (Z.min 1 (Z.of_nat (length (a :: l))))) with 1%nat
    by (simpl length; lia).
  simpl. rewrite Nat.sub_0_r. apply firstn_all.
Qed.

Lemma slice_strip {A} (a b : A) (body : list A) :
  Py.slice (Some 1) (Some (-1)) (a :: body ++ [b]) = body.
Proof.
  unfold Py.slice, Py.clip. simpl.
  rewrite length_app. simpl.
  replace (Z.to_nat (Z.min 1 _)) with 1%nat by lia.
  replace (Z.to_nat (Z.max 0 _) - 1)%nat with (length body) by lia.
  simpl. apply take_app_length.
Qed.

Lemma length_removelast {A} (l : list A) :
  length (removelast l) = (length l - 1)%nat.
Proof.
  rewrite removelast_firstn_len, length_take. lia.
Qed.

Lemma length_tail {A} (l : list A) : length (tail l) = (length l - 1)%nat.
Proof. destruct l; simpl; lia. Qed.

(** ** [max] on lengths *)

Lemma max_from_nat cur l :
  Py.max_from Py.gt_nat cur l = Nat.max cur (max_list l).
Proof.
  revert cur. induction l as [|x l IH]; intros cur; simpl.
  - lia.
  - rewrite IH. unfold Py.gt_nat.
    destruct (Nat.ltb_spec cur x); lia.
Qed.

Lemma max_nat_nonempty l :
  l ≠ [] -> Py.max Py.gt_nat l = Ok (max_list l).
Proof.
  destruct l as [|x l]; [congruence|]. intros _. simpl.
  now rewrite max_from_nat.
Qed.

(** ** The padding loop *)

Lemma length_pad_row w xs :
  (length xs <= w)%nat -> length (pad_row w xs) = w.
Proof.
  intros. unfold pad_row. rewrite length_app, length_replicate. lia.
Qed.

Lemma set_prefix_zero_row (rows rest : Np.matrix) w xs :
  (length xs <= w)%nat ->
  Np.set_prefix (rows ++ replicate w 0 :: rest) (length rows) (length xs) xs
  = Ok ((rows ++ [pad_row w xs]) ++ rest).
Proof.
  intros Hle. unfold Np.set_prefix.
  rewrite list_lookup_middle by reflexivity.
  rewrite length_replicate.
  replace (length xs `min` w)%nat with (length xs) by lia.
  rewrite decide_True by reflexivity.
  rewrite drop_replicate.
  rewrite <- (Nat.add_0_r (length rows)) at 1.
  rewrite insert_app_r. simpl.
  now rewrite <- app_assoc.
Qed.

Lemma sent_padding_loop_zeros pairs :
  forall (ds di dt : Np.matrix) (sl tl : list nat) (b ws wt : nat),
    length di = length ds -> length dt = length ds ->
    (length pairs <= b)%nat ->
    Forall (fun p => (length p.1 <= ws)%nat /\ (length p.2 - 1 <= wt)%nat) pairs ->
    sent_padding_loop (length ds) pairs
      (mkPadded (ds ++ Np.zeros b ws) sl (di ++ Np.zeros b wt)
                (dt ++ Np.zeros b wt) tl)
    = Ok (mkPadded
            (ds ++ ((fun p => pad_row ws p.1) <$> pairs)
                ++ Np.zeros (b - length pairs) ws)
            (sl ++ ((fun p => length p.1) <$> pairs))
            (di ++ ((fun p => pad_row wt (removelast p.2)) <$> pairs)
                ++ Np.zeros (b - length pairs) wt)
            (dt ++ ((fun p => pad_row wt (tail p.2)) <$> pairs)
                ++ Np.zeros (b - length pairs) wt)
            (tl ++ ((fun p => length (removelast p.2)) <$> pairs))).
Proof.
  induction pairs as [|[s t] pairs IH]; intros ds di dt sl tl b ws wt Hi Ht Hb Hall.
  - simpl. rewrite Nat.sub_0_r, !app_nil_r. reflexivity.
  - inversion Hall as [|? ? [Hs Hlt] Hall']; subst. simpl in Hs, Hlt, Hb.
    destruct b as [|b]; [lia|].
    cbn [sent_padding_loop padded_src_sents padded_Yinput padded_Ytarget
         src_lens tgt_lens fst snd].
    rewrite slice_init, slice_tail.
    unfold Np.zeros at 1 2 3. rewrite !replicate_S. fold (Np.zeros b ws).
    fold (Np.zeros b wt).
    rewrite set_prefix_zero_row by assumption. cbn [mbind result_bind].
    rewrite <- Hi.
    rewrite set_prefix_zero_row by (rewrite length_removelast; assumption).
    cbn [mbind result_bind].
    rewrite Hi, <- Ht.
    replace (length (removelast t)) with (length (tail t))
      by (rewrite length_removelast, length_tail; reflexivity).
    rewrite set_prefix_zero_row by (rewrite length_tail; assumption).
    cbn [mbind result_bind].
    replace (S (length dt)) with (length (ds ++ [pad_row ws s]))
      by (rewrite length_app; simpl; lia).
    rewrite IH; [| rewrite !length_app; simpl; lia
                 | rewrite !length_app; simpl; lia | lia | assumption].
    rewrite <- !app_assoc.
    replace (length (tail t)) with (length (removelast t))
      by (rewrite length_removelast, length_tail; reflexivity).
    reflexivity.
Qed.

(** The result of [sent_padding] in closed form. *)
Lemma sent_padding_closed_form (src_sents tgt_sents : list (list Z)) :
  src_sents ≠ [] -> tgt_sents ≠ [] ->
  let pairs := zip src_sents tgt_sents in
  let ws := max_list (length <$> src_sents) in
  let wt := max_list (length <$> tgt_sents) in
  let b := length src_sents in
  sent_padding src_sents tgt_sents
  = Ok (mkPadded
          (((fun p => pad_row ws p.1) <$> pairs)
             ++ Np.zeros (b - length pairs) ws)
          ((fun p => length p.1) <$> pairs)
          (((fun p => pad_row wt (removelast p.2)) <$> pairs)
             ++ Np.zeros (b - length pairs) wt)
          (((fun p => pad_row wt (tail p.2)) <$> pairs)
             ++ Np.zeros (b - length pairs) wt)
          ((fun p => length (removelast p.2)) <$> pairs)).
Proof.
  intros Hs Ht pairs ws wt b. unfold sent_padding.
  rewrite (max_nat_nonempty (length <$> src_sents))
    by (destruct src_sents; [congruence | discriminate]).
  rewrite (max_nat_nonempty (length <$> tgt_sents))
    by (destruct tgt_sents; [congruence | discriminate]).
  cbn [mbind result_bind].
  apply (sent_padding_loop_zeros (zip src_sents tgt_sents) [] [] [] [] []
           (length src_sents) ws wt); try reflexivity.
  - rewrite length_zip_with. lia.
  - apply Forall_forall. intros [s t] Hin.
    split; simpl.
    + apply max_list_elem_of_le, list_elem_of_fmap_2.
      eapply elem_of_zip_l; eassumption.
    + assert (length t ≤ wt)%nat; [|lia].
      apply max_list_elem_of_le, list_elem_of_fmap_2.
      eapply elem_of_zip_r; eassumption.
Qed.

Lemma take_pad_row w xs : take (length xs) (pad_row w xs) = xs.
Proof. apply take_app_length. Qed.

Lemma drop_pad_row w xs :
  drop (length xs) (pad_row w xs)
  = replicate (length (pad_row w xs) - length xs) 0.
Proof.
  unfold pad_row. rewrite drop_app_length, length_app, length_replicate.
  f_equal. lia.
Qed.

Lemma lookup_padded_row {A} (f : A -> list Z) (pairs : list A) rest i p :
  pairs !! i = Some p -> ((f <$> pairs) ++ rest) !! i = Some (f p).
Proof.
  intros Hp. apply lookup_app_l_Some.
  now rewrite list_lookup_fmap, Hp.
Qed.

(** C2. On a non-empty batch (in particular one of non-empty source
    sentences and of target sentences of length at least 2) [sent_padding]
    returns; every row of the source matrix has the maximum source length
    as its width; and for every example [i] the recorded lengths are those
    of the source sentence and of the target sentence less one token, the
    first [tgt_lens[i]] entries of the decoder-input row are the target
    sentence without its final token, those of the decoder-target row are
    the target sentence without its first token, the first [src_lens[i]]
    entries of the source row are the source sentence, and all entries
    beyond these prefixes are zero. *)
Theorem sent_padding_correct (src_sents tgt_sents : list (list Z)) :
  src_sents ≠ [] -> tgt_sents ≠ [] ->
  exists p,
    sent_padding src_sents tgt_sents = Ok p /\
    Forall (fun row => length row = max_list (length <$> src_sents))
           (padded_src_sents p) /\
    forall i s t,
      src_sents !! i = Some s -> tgt_sents !! i = Some t ->
      exists n row_src row_in row_tgt,
        src_lens p !! i = Some (length s) /\
        tgt_lens p !! i = Some n /\
        n = (length t - 1)%nat /\
        padded_src_sents p !! i = Some row_src /\
        padded_Yinput p !! i = Some row_in /\
        padded_Ytarget p !! i = Some row_tgt /\
        take (length s) row_src = s /\
        take n row_in = removelast t /\
        take n row_tgt = tail t /\
        drop (length s) row_src = replicate (length row_src - length s) 0 /\
        drop n row_in = replicate (length row_in - n) 0 /\
        drop n row_tgt = replicate (length row_tgt - n) 0.
Proof.
  intros Hs Ht. eexists. split; [apply sent_padding_closed_form; assumption|].
  cbn [padded_src_sents padded_Yinput padded_Ytarget src_lens tgt_lens].
  split.
  - apply Forall_app. split.
    + apply Forall_fmap, Forall_forall. intros [s t] Hin. simpl.
      apply length_pad_row, max_list_elem_of_le, list_elem_of_fmap_2.
      eapply elem_of_zip_l; eassumption.
    + apply Forall_replicate, length_replicate.
  - intros i s t Hsi Hti.
    assert (Hp : zip src_sents tgt_sents !! i = Some (s, t)).
    { apply lookup_zip_with_Some. eauto. }
    exists (length (removelast t)).
    exists (pad_row (max_list (length <$> src_sents)) s).
    exists (pad_row (max_list (length <$> tgt_sents)) (removelast t)).
    exists (pad_row (max_list (length <$> tgt_sents)) (tail t)).
    rewrite !list_lookup_fmap, Hp. simpl.
    rewrite !(lookup_padded_row _ _ _ _ _ Hp). simpl.
    repeat split; try reflexivity.
    + apply length_removelast.
    + apply take_pad_row.
    + apply take_pad_row.
    + replace (length (removelast t)) with (length (tail t))
        by (rewrite length_removelast, length_tail; reflexivity).
      apply take_pad_row.
    + apply drop_pad_row.
    + apply drop_pad_row.
    + replace (length (removelast t)) with (length (tail t))
        by (rewrite length_removelast, length_tail; reflexivity).
      apply drop_pad_row.
Qed.

Lemma sent_padding_correct_witness :
  exists p,
    sent_padding [[4;5];[4;5;6]] [[1;7;2];[1;7;8;2]] = Ok p /\
    Forall (fun row => length row = max_list (length <$> [[4;5];[4;5;6]]))
           (padded_src_sents p) /\
    forall i s t,
      [[4;5];[4;5;6]] !! i = Some s -> [[1;7;2];[1;7;8;2]] !! i = Some t ->
      exists n row_src row_in row_tgt,
        src_lens p !! i = Some (length s) /\
        tgt_lens p !! i = Some n /\
        n = (length t - 1)%nat /\
        padded_src_sents p !! i = Some row_src /\
        padded_Yinput p !! i = Some row_in /\
        padded_Ytarget p !! i = Some row_tgt /\
        take (length s) row_src = s /\
        take n row_in = removelast t /\
        take n row_tgt = tail t /\
        drop (length s) row_src = replicate (length row_src - length s) 0 /\
        drop n row_in = replicate (length row_in - n) 0 /\
        drop n row_tgt = replicate (length row_tgt - n) 0.
Proof.
  apply (sent_padding_correct [[4;5];[4;5;6]] [[1;7;2];[1;7;8;2]]);
    vm_compute; discriminate.
Defined.

(** C3, as stated, fails: a batch whose only source sentence is empty and
    whose only target sentence has a single token is padded, not refused. *)
Lemma sent_padding_accepts_degenerate :
  Exists (fun s : list Z => s = []) [[]] /\
  Exists (fun t : list Z => (length t < 2)%nat) [[1]] /\
  sent_padding [[]] [[1]] = Ok (mkPadded [[]] [0%nat] [[0]] [[0]] [0%nat]).
Proof.
  split; [constructor; reflexivity|].
  split; [constructor; simpl; lia|].
  reflexivity.
Qed.

(** C3, amended. [sent_padding] raises exactly when it is given no source
    sentence or no target sentence, and what it raises is the [ValueError]
    of [max] on an empty sequence; on every other batch, also one with
    empty sentences or with target sentences shorter than two tokens, it
    returns a padded result. *)
Theorem sent_padding_fails_only_without_sentences
    (src_sents tgt_sents : list (list Z)) :
  match src_sents, tgt_sents with
  | [], _ | _, [] =>
      sent_padding src_sents tgt_sents
      = Raise (ValueError "max() arg is an empty sequence")
  | _ :: _, _ :: _ => is_ok (sent_padding src_sents tgt_sents) = true
  end.
Proof.
  destruct src_sents as [|s src]; [reflexivity|].
  destruct tgt_sents as [|t tgt]; [reflexivity|].
  rewrite sent_padding_closed_form by discriminate. reflexivity.
Qed.

(** C6, as stated, fails: on the batch of scenario 1 the decoder-input and
    the decoder-target matrices have width 4, and their rows are not the
    unpadded rows the scenario lists. *)
Lemma scenario_decoder_matrices_have_width_4 :
  exists p,
    sent_padding [[4;5];[4;5;6]] [[1;7;2];[1;7;8;2]] = Ok p /\
    Forall (fun row => length row = 4%nat) (padded_Yinput p) /\
    Forall (fun row => length row = 4%nat) (padded_Ytarget p) /\
    padded_Yinput p ≠ [[1;7];[1;7;8]] /\
    padded_Ytarget p ≠ [[7;2];[7;8;2]].
Proof.
  eexists. split; [reflexivity|]. simpl.
  repeat split; try (repeat constructor); discriminate.
Qed.

(** C6, amended. Padding the batch [[4,5],[4,5,6]] / [[1,7,2],[1,7,8,2]]
    yields a source matrix of width 3, target lengths [2,3], and
    decoder-input and decoder-target matrices of width 4 with rows
    [[1,7,0,0],[1,7,8,0]] and [[7,2,0,0],[7,8,2,0]]; cut at the target
    lengths the rows are [[1,7],[1,7,8]] and [[7,2],[7,8,2]]. *)
Theorem sent_padding_scenario :
  exists p,
    sent_padding [[4;5];[4;5;6]] [[1;7;2];[1;7;8;2]] = Ok p /\
    p = mkPadded [[4;5;0];[4;5;6]] [2;3]%nat
                 [[1;7;0;0];[1;7;8;0]] [[7;2;0;0];[7;8;2;0]] [2;3]%nat /\
    zip_with take (tgt_lens p) (padded_Yinput p) = [[1;7];[1;7;8]] /\
    zip_with take (tgt_lens p) (padded_Ytarget p) = [[7;2];[7;8;2]].
Proof.
  eexists. split; [reflexivity|]. repeat split.
Qed.

(** ** The scorer *)

Lemma getitem_first {A} (x : A) (l : list A) : Py.getitem (x :: l) 0 = Ok x.
Proof.
  unfold Py.getitem. simpl length.
  replace (Z.of_nat (S (length l)) <=? 0) with false
    by (symmetry; apply Z.leb_gt; lia).
  reflexivity.
Qed.

Lemma scorer_unfolded {H bleu : Type}
    (corpus_bleu : list (list (list string)) -> list H -> bleu)
    (references : list (list string)) (hypotheses : list H) :
  compute_corpus_level_bleu_score corpus_bleu references hypotheses
  = match references with
    | [] => Raise (IndexError "list index out of range")
    | [] :: _ => Raise (IndexError "list index out of range")
    | (tok0 :: _) :: _ =>
        Ok (corpus_bleu
              ((fun ref => [ref]) <$>
                 (if String.eqb tok0 "<s>"
                  then (fun ref => Py.slice (Some 1) (Some (-1)) ref)
                         <$> references
                  else references))
              hypotheses)
    end.
Proof.
  unfold compute_corpus_level_bleu_score.
  destruct references as [|[|tok0 ref0] refs]; [reflexivity| |].
  - rewrite getitem_first. reflexivity.
  - rewrite !getitem_first. reflexivity.
Qed.

Lemma strip_sentinels_all (bodies : list (list string)) :
  (fun ref => Py.slice (Some 1) (Some (-1)) ref)
    <$> ((fun body => "<s>" :: body ++ ["</s>"]) <$> bodies)
  = bodies.
Proof.
  induction bodies as [|b bodies IH]; [reflexivity|].
  rewrite !fmap_cons, IH, slice_strip. reflexivity.
Qed.

(** C7. On a non-empty list of references, each carrying the start
    sentinel in front and the end sentinel behind, the scorer passes to
    [corpus_bleu] every reference without its first and its last token,
    and the hypotheses as they were given. *)
Theorem bleu_strips_reference_sentinels {H bleu : Type}
    (corpus_bleu : list (list (list string)) -> list H -> bleu)
    (bodies : list (list string)) (hypotheses : list H) :
  bodies ≠ [] ->
  compute_corpus_level_bleu_score corpus_bleu
    ((fun body => "<s>" :: body ++ ["</s>"]) <$> bodies) hypotheses
  = Ok (corpus_bleu ((fun body => [body]) <$> bodies) hypotheses).
Proof.
  intros Hne. rewrite scorer_unfolded.
  pose proof (strip_sentinels_all bodies) as Hstrip.
  destruct bodies as [|b bodies]; [congruence|].
  rewrite fmap_cons. simpl String.eqb. cbv iota.
  rewrite fmap_cons in Hstrip. cbv beta in Hstrip.
  rewrite Hstrip. reflexivity.
Qed.

Lemma bleu_strips_reference_sentinels_witness :
  compute_corpus_level_bleu_score
    (fun (refs : list (list (list string))) (hyps : list (list string)) =>
       (refs, hyps))
    ((fun body => "<s>" :: body ++ ["</s>"]) <$> [["a"; "b"]; ["c"]])
    [["a"]; ["c"]]
  = Ok ((fun body => [body]) <$> [["a"; "b"]; ["c"]], [["a"]; ["c"]]).
Proof.
  apply (bleu_strips_reference_sentinels
           (fun refs (hyps : list (list string)) => (refs, hyps))
           [["a"; "b"]; ["c"]] [["a"]; ["c"]]).
  discriminate.
Defined.

(** ** [NMT.beam_search] *)

(** C5. The method returns the integer 0 whatever the sentence, the beam
    size and the step bound are; it returns no list of hypotheses. *)
Theorem beam_search_returns_zero `{C : Collaborators} (self : NMT)
    (src_sent : list string) (beam_size max_decoding_time_step : Z) :
  NMT_beam_search self src_sent beam_size max_decoding_time_step = VInt 0 /\
  forall l, NMT_beam_search self src_sent beam_size max_decoding_time_step
            <> VHypotheses l.
Proof. split; [reflexivity | discriminate]. Qed.

(** ** The validation decision *)

Section Validation.
Context `{C : Collaborators}.

Lemma gt_metric_true a b : gt_metric a b = true <-> (b < a)%Q.
Proof.
  unfold gt_metric. rewrite negb_true_iff. split.
  - intros H. apply Qnot_le_lt. intros Hle.
    apply Qle_bool_iff in Hle. congruence.
  - intros H. destruct (Qle_bool a b) eqn:E; [|reflexivity].
    apply Qle_bool_iff in E. exfalso. eapply Qlt_not_le; eassumption.
Qed.

Lemma gt_metric_false a b : gt_metric a b = false <-> (a <= b)%Q.
Proof.
  unfold gt_metric. rewrite negb_false_iff. apply Qle_bool_iff.
Qed.

Lemma max_from_upper cur l :
  Forall (fun h => (h <= Py.max_from gt_metric cur l)%Q) (cur :: l).
Proof.
  revert cur. induction l as [|x r IH]; intros cur.
  - simpl. constructor; [apply Qle_refl|constructor].
  - simpl. specialize (IH (if gt_metric x cur then x else cur)).
    apply Forall_cons in IH as [Hc Hr].
    destruct (gt_metric x cur) eqn:E.
    + apply gt_metric_true in E.
      constructor; [|constructor; assumption].
      eapply Qle_trans; [apply Qlt_le_weak; exact E | exact Hc].
    + apply gt_metric_false in E.
      constructor; [exact Hc|]. constructor; [|exact Hr].
      eapply Qle_trans; [exact E | exact Hc].
Qed.

Lemma max_from_elem cur l : Py.max_from gt_metric cur l ∈ cur :: l.
Proof.
  revert cur. induction l as [|x r IH]; intros cur.
  - simpl. left.
  - simpl. specialize (IH (if gt_metric x cur then x else cur)).
    apply elem_of_cons in IH as [IH|IH].
    + rewrite IH. destruct (gt_metric x cur); [right; left | left].
    + right; right; exact IH.
Qed.

(** [is_better] never raises: it is [true] when the metric lies strictly
    above every metric of the history, and [false] when some metric of the
    history is at least as large. *)
Lemma is_better_cases hist m :
  (improving hist m /\ is_better hist m = Ok true) \/
  (non_improving hist m /\ is_better hist m = Ok false).
Proof.
  destruct hist as [|h0 r]; [left; split; [constructor | reflexivity]|].
  unfold is_better. simpl.
  pose proof (max_from_upper h0 r) as Hup.
  pose proof (max_from_elem h0 r) as Hel.
  destruct (gt_metric m (Py.max_from gt_metric h0 r)) eqn:E.
  - left. split; [|reflexivity]. apply gt_metric_true in E. unfold improving.
    eapply Forall_impl; [exact Hup|]. intros h Hh. simpl in Hh.
    eapply Qle_lt_trans; eassumption.
  - right. split; [|reflexivity]. apply gt_metric_false in E.
    unfold non_improving.
    apply Exists_exists. eexists. split; [exact Hel | exact E].
Qed.

Lemma improvement_excludes_degeneration hist m :
  improving hist m -> non_improving hist m -> False.
Proof.
  unfold improving, non_improving. intros Hall Hex.
  apply Exists_exists in Hex as (h & Hin & Hle).
  rewrite Forall_forall in Hall. apply (Qlt_not_le _ _ (Hall h Hin) Hle).
Qed.

Lemma is_better_true hist m :
  is_better hist m = Ok true <-> improving hist m.
Proof.
  destruct (is_better_cases hist m) as [[H E]|[H E]]; rewrite E.
  - tauto.
  - split; [discriminate|]. intros H'.
    destruct (improvement_excludes_degeneration _ _ H' H).
Qed.

Lemma is_better_false hist m :
  is_better hist m = Ok false <-> non_improving hist m.
Proof.
  destruct (is_better_cases hist m) as [[H E]|[H E]]; rewrite E.
  - split; [discriminate|]. intros H'.
    destruct (improvement_excludes_degeneration _ _ H H').
  - tauto.
Qed.


Lemma NMT_load_run (self : NMT) path (w : world) :
  NMT_load self path w =
    match checkpoints w !! (path ++ "-encoder")%string with
    | None => (w, Raise (FileNotFoundError (path ++ "-encoder")%string))
    | Some enc =>
        match checkpoints w !! (path ++ "-decoder")%string with
        | None => (w, Raise (FileNotFoundError (path ++ "-decoder")%string))
        | Some dec =>
            (w, Ok (mkNMT (vocab self) enc dec false false
                          (scheduler_steps self)))
        end
    end.
Proof.
  unfold NMT_load, bind, torch_load, ret.
  destruct (checkpoints w !! (path ++ "-encoder")%string); [|reflexivity].
  destruct (checkpoints w !! (path ++ "-decoder")%string); reflexivity.
Qed.

(** The improving branch, run. *)
Lemma validation_update_better args m st w :
  is_better (hist_valid_scores st) m = Ok true ->
  validation_update args m st w =
    (mkWorld
       (<[(model_save_path st ++ "-decoder")%string := decoder (model st)]>
          (<[(model_save_path st ++ "-encoder")%string := encoder (model st)]>
             (checkpoints w)))
       (text_files w)
       (trace w ++ [PrintSaveBest (model_save_path st);
                    TorchSave (model_save_path st ++ "-encoder")
                              (encoder (model st));
                    TorchSave (model_save_path st ++ "-decoder")
                              (decoder (model st))]),
     Ok (set_patience (set_hist st (hist_valid_scores st ++ [m])) 0)).
Proof.
  intros Hb. unfold validation_update, bind, lift. rewrite Hb.
  unfold print, NMT_save, bind, torch_save, ret. simpl.
  rewrite <- !app_assoc. reflexivity.
Qed.

(** The other branch, run. *)
Lemma validation_update_worse args m st w :
  is_better (hist_valid_scores st) m = Ok false ->
  validation_update args m st w =
    let st1 := set_hist st (hist_valid_scores st ++ [m]) in
    let p := patience st + 1 in
    let n := num_trial st + 1 in
    if patience st <? arg_patience args then
      if p =? arg_patience args then
        if n =? arg_max_num_trial args then
          (printed w [PrintHitPatience p; PrintHitTrial n; PrintEarlyStop],
           Raise (SystemExit 0))
        else
          match checkpoints w !! (model_save_path st ++ "-encoder")%string,
                checkpoints w !! (model_save_path st ++ "-decoder")%string with
          | Some enc, Some dec =>
              (printed w [PrintHitPatience p; PrintHitTrial n;
                          PrintLoadAndDecay; PrintRestoreOptimizers],
               Ok (mkTrainState (train_data st) (dev_data st)
                     (model_save_path st)
                     (mkNMT (vocab (model st)) enc dec false false
                            (S (scheduler_steps (model st))))
                     n (train_iter st) 0 (epoch st) (valid_num st)
                     (hist_valid_scores st ++ [m])))
          | Some enc, None =>
              (printed w [PrintHitPatience p; PrintHitTrial n;
                          PrintLoadAndDecay],
               Raise (FileNotFoundError (model_save_path st ++ "-decoder")%string))
          | None, _ =>
              (printed w [PrintHitPatience p; PrintHitTrial n;
                          PrintLoadAndDecay],
               Raise (FileNotFoundError (model_save_path st ++ "-encoder")%string))
          end
      else (printed w [PrintHitPatience p], Ok (set_patience st1 p))
    else (w, Ok st1).
Proof.
  intros Hb. unfold validation_update, bind, lift. rewrite Hb.
  cbv zeta. cbn [patience set_hist set_patience].
  destruct (patience st <? arg_patience args); [|reflexivity].
  destruct (patience st + 1 =? arg_patience args); [|reflexivity].
  unfold printed, exit, raise, print, ret. simpl.
  destruct (num_trial st + 1 =? arg_max_num_trial args).
  - simpl. rewrite <- !app_assoc. reflexivity.
  - rewrite NMT_load_run. simpl.
    destruct (checkpoints w !! (model_save_path st ++ "-encoder")%string);
      [destruct (checkpoints w !! (model_save_path st ++ "-decoder")%string)|];
      simpl; rewrite <- ?app_assoc; reflexivity.
Qed.


Lemma append_inj_r (p a b : string) : (p ++ a)%string = (p ++ b)%string -> a = b.
Proof.
  induction p as [|c p IH]; simpl; [tauto|].
  intros H. injection H. exact IH.
Qed.

Lemma encoder_path_neq p : (p ++ "-decoder")%string <> (p ++ "-encoder")%string.
Proof. intros H. apply append_inj_r in H. discriminate. Qed.

Lemma new_events_refl (w : world) : new_events w w = [].
Proof. unfold new_events. apply drop_all. Qed.





(** X2. At a validation whose metric does not improve on the history:
    while the patience counter incremented by one stays below the limit,
    only the counter changes; when the increment reaches the limit, the
    trial counter is incremented in this same validation, and the process
    exits with status 0 if the trial counter thereby reaches the maximum,
    and otherwise the scheduler makes a step, the parameters are loaded
    from the checkpoint (the validation raises [FileNotFoundError] when a
    file is missing) and the patience counter is reset to 0; when the
    patience counter is not below the limit, nothing changes but the
    history. *)
Theorem trial_when_patience_reaches_limit (args : Args) (m : Q)
    (st : train_state) (w : world) :
  non_improving (hist_valid_scores st) m ->
  let st1 := set_hist st (hist_valid_scores st ++ [m]) in
  let r := (validation_update args m st w).2 in
  let path := model_save_path st in
  (patience st + 1 < arg_patience args ->
     r = Ok (set_patience st1 (patience st + 1))) /\
  (patience st + 1 = arg_patience args ->
   num_trial st + 1 = arg_max_num_trial args ->
     r = Raise (SystemExit 0)) /\
  (patience st + 1 = arg_patience args ->
   num_trial st + 1 <> arg_max_num_trial args ->
     match checkpoints w !! (path ++ "-encoder")%string,
           checkpoints w !! (path ++ "-decoder")%string with
     | Some enc, Some dec =>
         exists st',
           r = Ok st' /\
           num_trial st' = num_trial st + 1 /\
           patience st' = 0 /\
           encoder (model st') = enc /\ decoder (model st') = dec /\
           scheduler_steps (model st') = S (scheduler_steps (model st)) /\
           hist_valid_scores st' = hist_valid_scores st ++ [m]
     | None, _ => r = Raise (FileNotFoundError (path ++ "-encoder")%string)
     | Some _, None => r = Raise (FileNotFoundError (path ++ "-decoder")%string)
     end) /\
  (arg_patience args <= patience st ->
     validation_update args m st w = (w, Ok st1)).
Proof.
  intros Hn. apply is_better_false in Hn.
  rewrite (validation_update_worse _ _ _ _ Hn). cbv zeta.
  repeat split.
  - intros Hlt.
    replace (patience st <? arg_patience args) with true
      by (symmetry; apply Z.ltb_lt; lia).
    replace (patience st + 1 =? arg_patience args) with false
      by (symmetry; apply Z.eqb_neq; lia).
    reflexivity.
  - intros Heq Hmax.
    replace (patience st <? arg_patience args) with true
      by (symmetry; apply Z.ltb_lt; lia).
    replace (patience st + 1 =? arg_patience args) with true
      by (symmetry; apply Z.eqb_eq; lia).
    replace (num_trial st + 1 =? arg_max_num_trial args) with true
      by (symmetry; apply Z.eqb_eq; lia).
    reflexivity.
  - intros Heq Hmax.
    replace (patience st <? arg_patience args) with true
      by (symmetry; apply Z.ltb_lt; lia).
    replace (patience st + 1 =? arg_patience args) with true
      by (symmetry; apply Z.eqb_eq; lia).
    replace (num_trial st + 1 =? arg_max_num_trial args) with false
      by (symmetry; apply Z.eqb_neq; lia).
    destruct (checkpoints w !! (model_save_path st ++ "-encoder")%string);
      [destruct (checkpoints w !! (model_save_path st ++ "-decoder")%string)|];
      try reflexivity.
    eexists. split; [reflexivity|]. simpl. repeat split.
  - intros Hge.
    replace (patience st <? arg_patience args) with false
      by (symmetry; apply Z.ltb_ge; lia).
    reflexivity.
Qed.


(** *** Counters across validations *)

Lemma validation_decision_run args m st w :
  validation_decision args m st w =
    match validation_update args m st w with
    | (w', Ok st') =>
        if epoch st' =? arg_max_epoch args
        then (printed w' [PrintMaxEpoch], Raise (SystemExit 0))
        else (w', Ok st')
    | (w', Raise e) => (w', Raise e)
    end.
Proof.
  unfold validation_decision, bind.
  destruct (validation_update args m st w) as [w' [st'|e]]; [|reflexivity].
  destruct (epoch st' =? arg_max_epoch args); reflexivity.
Qed.

(** What a validation that returns leaves in the state. *)
Lemma validation_update_state args m st w st' :
  (validation_update args m st w).2 = Ok st' ->
  model_save_path st' = model_save_path st /\
  train_data st' = train_data st /\ dev_data st' = dev_data st /\
  epoch st' = epoch st /\ train_iter st' = train_iter st /\
  valid_num st' = valid_num st /\
  vocab (model st') = vocab (model st) /\
  hist_valid_scores st' = hist_valid_scores st ++ [m] /\
  (0 <= patience st < arg_patience args ->
   0 <= patience st' < arg_patience args) /\
  (num_trial st < arg_max_num_trial args ->
   num_trial st' < arg_max_num_trial args) /\
  num_trial st <= num_trial st' /\
  Z.of_nat (scheduler_steps (model st')) - num_trial st'
    = Z.of_nat (scheduler_steps (model st)) - num_trial st.
Proof.
  destruct (is_better_cases (hist_valid_scores st) m) as [[_ Hb]|[_ Hb]].
  - rewrite (validation_update_better _ _ _ _ Hb). simpl.
    intros [= <-]. simpl. repeat split; lia.
  - rewrite (validation_update_worse _ _ _ _ Hb). cbv zeta.
    destruct (Z.ltb_spec (patience st) (arg_patience args));
      [|simpl; intros [= <-]; simpl; repeat split; lia].
    destruct (Z.eqb_spec (patience st + 1) (arg_patience args));
      [|simpl; intros [= <-]; simpl; repeat split; lia].
    destruct (Z.eqb_spec (num_trial st + 1) (arg_max_num_trial args));
      [simpl; discriminate|].
    destruct (checkpoints w !! (model_save_path st ++ "-encoder")%string);
      [destruct (checkpoints w !! (model_save_path st ++ "-decoder")%string)|];
      simpl; try discriminate.
    intros [= <-]. simpl. repeat split; lia.
Qed.

Lemma validation_decision_state args m st w st' :
  (validation_decision args m st w).2 = Ok st' ->
  (validation_update args m st w).2 = Ok st' /\
  (validation_decision args m st w).1 = (validation_update args m st w).1 /\
  epoch st <> arg_max_epoch args.
Proof.
  rewrite validation_decision_run.
  destruct (validation_update args m st w) as [w1 [st1|e]] eqn:E;
    [|discriminate].
  pose proof (validation_update_state args m st w st1) as Hst.
  rewrite E in Hst. destruct (Hst eq_refl) as (_ & _ & _ & Hep & _).
  destruct (Z.eqb_spec (epoch st1) (arg_max_epoch args)); [discriminate|].
  simpl. intros [= <-]. repeat split. congruence.
Qed.

Lemma validations_cons args m ms st w :
  validations args (m :: ms) st w =
    match validation_decision args m st w with
    | (w', Ok st') => validations args ms st' w'
    | (w', Raise e) => (w', Raise e)
    end.
Proof. reflexivity. Qed.

Lemma validations_state args ms : forall st w st',
  (validations args ms st w).2 = Ok st' ->
  model_save_path st' = model_save_path st /\
  epoch st' = epoch st /\
  vocab (model st') = vocab (model st) /\
  hist_valid_scores st' = hist_valid_scores st ++ ms /\
  (0 <= patience st < arg_patience args ->
   0 <= patience st' < arg_patience args) /\
  (num_trial st < arg_max_num_trial args ->
   num_trial st' < arg_max_num_trial args) /\
  num_trial st <= num_trial st' /\
  Z.of_nat (scheduler_steps (model st')) - num_trial st'
    = Z.of_nat (scheduler_steps (model st)) - num_trial st.
Proof.
  induction ms as [|m ms IH]; intros st w st'.
  - simpl. intros [= <-]. rewrite app_nil_r. repeat split; lia.
  - rewrite validations_cons.
    destruct (validation_decision args m st w) as [w1 [st1|e]] eqn:E;
      [|discriminate].
    intros Hrest.
    assert (Hd : (validation_decision args m st w).2 = Ok st1)
      by (rewrite E; reflexivity).
    apply validation_decision_state in Hd as (Hu & _ & _).
    apply validation_update_state in Hu
      as (Hp & _ & _ & He & _ & _ & Hv & Hh & Hpat & Htr & Hle & Hs).
    destruct (IH _ _ _ Hrest)
      as (Hp' & He' & Hv' & Hh' & Hpat' & Htr' & Hle' & Hs').
    rewrite Hp', He', Hv', Hh', Hh, Hp, He, Hv, <- app_assoc.
    repeat split; try tauto; lia.
Qed.

End Validation.

Lemma trial_when_patience_reaches_limit_witness :
  non_improving (hist_valid_scores Scenario.state3) (-19 # 10)%Q /\
  patience Scenario.state3 + 1 = arg_patience Fixture.args /\
  exists st',
    (validation_update Fixture.args (-19 # 10)%Q Scenario.state3
                       Fixture.world_with_model).2 = Ok st' /\
    num_trial st' = num_trial Scenario.state3 + 1 /\
    patience st' = 0 /\
    encoder (model st') = 7 /\ decoder (model st') = 8 /\
    scheduler_steps (model st') = S (scheduler_steps (model Scenario.state3)) /\
    hist_valid_scores st'
      = hist_valid_scores Scenario.state3 ++ [(-19 # 10)%Q].
Proof.
  assert (Hn : non_improving (hist_valid_scores Scenario.state3) (-19 # 10)%Q).
  { apply Exists_cons_tl, Exists_cons_hd. unfold Qle. simpl. lia. }
  split; [exact Hn|]. split; [reflexivity|].
  destruct (trial_when_patience_reaches_limit Fixture.args (-19 # 10)%Q
              Scenario.state3 Fixture.world_with_model Hn)
    as (_ & _ & H & _).
  apply (H eq_refl). simpl. lia.
Defined.

(** ** The schedule over several validations *)

Section Schedule.
Context `{C : Collaborators}.

Lemma non_improving_app hist m ms :
  non_improving hist m -> non_improving (hist ++ ms) m.
Proof.
  unfold non_improving. intros H. apply Exists_app. left. exact H.
Qed.

Lemma validations_app args ms ms' : forall st w,
  validations args (ms ++ ms') st w =
    match validations args ms st w with
    | (w', Ok st') => validations args ms' st' w'
    | (w', Raise e) => (w', Raise e)
    end.
Proof.
  induction ms as [|m ms IH]; intros st w; [reflexivity|].
  rewrite <- app_comm_cons, !validations_cons.
  destruct (validation_decision args m st w) as [w1 [st1|e]]; [|reflexivity].
  apply IH.
Qed.

(** A validation without improvement that leaves the counter below the
    limit, run. *)
Lemma validation_decision_patience args m st w :
  non_improving (hist_valid_scores st) m ->
  patience st + 1 < arg_patience args ->
  epoch st <> arg_max_epoch args ->
  validation_decision args m st w =
    (printed w [PrintHitPatience (patience st + 1)],
     Ok (set_patience (set_hist st (hist_valid_scores st ++ [m]))
                      (patience st + 1))).
Proof.
  intros Hn Hlt Hep. apply is_better_false in Hn.
  rewrite validation_decision_run, (validation_update_worse _ _ _ _ Hn).
  cbv zeta.
  replace (patience st <? arg_patience args) with true
    by (symmetry; apply Z.ltb_lt; lia).
  replace (patience st + 1 =? arg_patience args) with false
    by (symmetry; apply Z.eqb_neq; lia).
  simpl.
  replace (epoch st =? arg_max_epoch args) with false
    by (symmetry; apply Z.eqb_neq; exact Hep).
  reflexivity.
Qed.

Lemma validations_below_limit args ms : forall st w,
  Forall (non_improving (hist_valid_scores st)) ms ->
  patience st + Z.of_nat (length ms) < arg_patience args ->
  epoch st <> arg_max_epoch args ->
  exists w',
    validations args ms st w =
      (w', Ok (set_patience (set_hist st (hist_valid_scores st ++ ms))
                            (patience st + Z.of_nat (length ms)))) /\
    checkpoints w' = checkpoints w.
Proof.
  induction ms as [|m ms IH]; intros st w Hall Hlt Hep.
  - exists w. split; [|reflexivity]. simpl.
    destruct st; unfold ret, set_patience, set_hist; simpl.
    rewrite app_nil_r, Z.add_0_r. reflexivity.
  - apply Forall_cons in Hall as [Hm Hall]. simpl length in Hlt.
    rewrite validations_cons, validation_decision_patience
      by (try assumption; lia).
    destruct (IH (set_patience (set_hist st (hist_valid_scores st ++ [m]))
                               (patience st + 1))
                 (printed w [PrintHitPatience (patience st + 1)]))
      as (w' & Hrun & Hck).
    + simpl. eapply Forall_impl; [exact Hall|].
      intros x Hx. apply non_improving_app. exact Hx.
    + simpl. lia.
    + exact Hep.
    + exists w'. split; [|exact Hck]. rewrite Hrun.
      unfold set_patience, set_hist. simpl.
      rewrite <- app_assoc. simpl.
      do 2 f_equal. f_equal. lia.
Qed.

(** *** Which files the validations touch *)

Lemma touches_only_refl p (w : world) : touches_only p w w.
Proof.
  split; [|split; [reflexivity | reflexivity]].
  exists []. rewrite app_nil_r. split; [reflexivity | constructor].
Qed.

Lemma touches_only_trans p (w1 w2 w3 : world) :
  touches_only p w1 w2 -> touches_only p w2 w3 -> touches_only p w1 w3.
Proof.
  intros ((e1 & Ht1 & Hs1) & Hf1 & Hc1) ((e2 & Ht2 & Hs2) & Hf2 & Hc2).
  split; [|split].
  - exists (e1 ++ e2). rewrite Ht2, Ht1, app_assoc.
    split; [reflexivity | apply Forall_app; split; assumption].
  - congruence.
  - intros k Hk1 Hk2. rewrite Hc2, Hc1 by assumption. reflexivity.
Qed.

Lemma touches_only_printed p (w : world) evs :
  Forall (saves_under p) evs -> touches_only p w (printed w evs).
Proof.
  intros Hs. split; [|split; [reflexivity | reflexivity]].
  exists evs. split; [reflexivity | exact Hs].
Qed.

Lemma validation_update_touches args m st w :
  touches_only (model_save_path st) w (validation_update args m st w).1.
Proof.
  destruct (is_better_cases (hist_valid_scores st) m) as [[_ Hb]|[_ Hb]].
  - rewrite (validation_update_better _ _ _ _ Hb). simpl.
    split; [|split; [reflexivity|]].
    + eexists. split; [reflexivity|].
      repeat constructor; simpl; tauto.
    + intros k Hk1 Hk2. simpl.
      rewrite !lookup_insert_ne by congruence. reflexivity.
  - rewrite (validation_update_worse _ _ _ _ Hb). cbv zeta.
    repeat case_match; simpl;
      try apply touches_only_refl;
      apply touches_only_printed; repeat constructor.
Qed.

Lemma validation_decision_touches args m st w :
  touches_only (model_save_path st) w (validation_decision args m st w).1.
Proof.
  rewrite validation_decision_run.
  pose proof (validation_update_touches args m st w) as Hu.
  destruct (validation_update args m st w) as [w1 [st1|e]]; [|exact Hu].
  destruct (epoch st1 =? arg_max_epoch args); [|exact Hu].
  simpl in *. eapply touches_only_trans; [exact Hu|].
  apply touches_only_printed. repeat constructor.
Qed.

Lemma validations_touch args ms : forall st w,
  touches_only (model_save_path st) w (validations args ms st w).1.
Proof.
  induction ms as [|m ms IH]; intros st w.
  - apply touches_only_refl.
  - rewrite validations_cons.
    pose proof (validation_decision_touches args m st w) as Hd.
    destruct (validation_decision args m st w) as [w1 [st1|e]] eqn:E;
      [|exact Hd].
    assert (Hst : (validation_decision args m st w).2 = Ok st1)
      by (rewrite E; reflexivity).
    apply validation_decision_state in Hst as (Hu & _ & _).
    apply validation_update_state in Hu as (Hp & _).
    eapply touches_only_trans; [exact Hd|]. rewrite <- Hp. apply IH.
Qed.

(** X7. A validation in the epoch that equals the epoch limit never
    returns: the process exits with status 0 after the bookkeeping (unless
    the reload of a trial found a checkpoint file missing); when the metric
    improves on the history, the checkpoint has been written before the
    exit. *)
Theorem validation_at_epoch_limit_exits (args : Args) (m : Q)
    (st : train_state) (w : world) :
  epoch st = arg_max_epoch args ->
  exists e,
    (validation_decision args m st w).2 = Raise e /\
    (e = SystemExit 0 \/ exists path, e = FileNotFoundError path) /\
    (improving (hist_valid_scores st) m ->
       e = SystemExit 0 /\
       checkpoint_saved w (validation_decision args m st w).1).
Proof.
  intros Hep. rewrite validation_decision_run.
  destruct (is_better_cases (hist_valid_scores st) m) as [[Hi Hb]|[Hn Hb]].
  - rewrite (validation_update_better _ _ _ _ Hb). cbn [epoch set_patience set_hist].
    replace (epoch st =? arg_max_epoch args) with true
      by (symmetry; apply Z.eqb_eq; exact Hep).
    eexists. split; [reflexivity|]. split; [left; reflexivity|].
    intros _. split; [reflexivity|].
    exists (model_save_path st ++ "-encoder")%string, (encoder (model st)).
    unfold new_events, printed. simpl.
    rewrite <- app_assoc, drop_app_length. right; left.
  - pose proof (validation_update_state args m st w) as Hst.
    destruct (validation_update args m st w) as [w1 [st1|e]] eqn:E.
    + destruct (Hst st1 eq_refl) as (_ & _ & _ & Hep1 & _).
      replace (epoch st1 =? arg_max_epoch args) with true
        by (symmetry; apply Z.eqb_eq; congruence).
      eexists. split; [reflexivity|]. split; [left; reflexivity|].
      intros Hi. destruct (improvement_excludes_degeneration _ _ Hi Hn).
    + exists e. split; [reflexivity|]. split.
      * clear Hst. rewrite (validation_update_worse _ _ _ _ Hb) in E.
        cbv zeta in E.
        repeat case_match; simplify_eq; eauto.
      * intros Hi. destruct (improvement_excludes_degeneration _ _ Hi Hn).
Qed.

End Schedule.

Lemma validation_at_epoch_limit_exits_witness :
  exists e,
    (validation_decision Fixture.args (-2 # 1)%Q Scenario.state_last_epoch
                         Fixture.empty_world).2 = Raise e /\
    (e = SystemExit 0 \/ exists path, e = FileNotFoundError path) /\
    (improving (hist_valid_scores Scenario.state_last_epoch) (-2 # 1)%Q ->
       e = SystemExit 0 /\
       checkpoint_saved Fixture.empty_world
         (validation_decision Fixture.args (-2 # 1)%Q
            Scenario.state_last_epoch Fixture.empty_world).1).
Proof.
  apply (validation_at_epoch_limit_exits Fixture.args (-2 # 1)%Q
           Scenario.state_last_epoch Fixture.empty_world).
  reflexivity.
Defined.

(** ** The loop through several validations *)

Section Run.
Context `{C : Collaborators}.

Lemma training_between_refl (st : train_state) (w : world) :
  training_between st w st w.
Proof.
  repeat split. exists []. rewrite app_nil_r. split; [reflexivity | constructor].
Qed.

(** Validations in direct succession are a stretch of the loop. *)
Lemma validations_training_run args ms : forall st w st' w',
  validations args ms st w = (w', Ok st') ->
  training_run args ms st w st' w'.
Proof.
  induction ms as [|m ms IH]; intros st w st' w'.
  - simpl. intros [= <- <-]. constructor.
  - rewrite validations_cons.
    destruct (validation_decision args m st w) as [w1 [st1|e]] eqn:E;
      [|discriminate].
    intros Hrest. eapply run_cons.
    + apply training_between_refl.
    + exact E.
    + apply IH. exact Hrest.
Qed.

Lemma training_run_state args ms st w st' w' :
  training_run args ms st w st' w' ->
  model_save_path st' = model_save_path st /\
  vocab (model st') = vocab (model st) /\
  train_data st' = train_data st /\ dev_data st' = dev_data st /\
  hist_valid_scores st' = hist_valid_scores st ++ ms /\
  (0 <= patience st < arg_patience args ->
   0 <= patience st' < arg_patience args) /\
  (num_trial st < arg_max_num_trial args ->
   num_trial st' < arg_max_num_trial args) /\
  num_trial st <= num_trial st' /\
  Z.of_nat (scheduler_steps (model st')) - num_trial st'
    = Z.of_nat (scheduler_steps (model st)) - num_trial st.
Proof.
  induction 1 as [st w|m ms st w st0 w0 st1 w1 st' w' Hb Hd Hrun IH].
  - rewrite app_nil_r. repeat split; lia.
  - destruct Hb as (Btd & Bdd & Bp & Bn & Bpat & Bh & Bv & Bs & _).
    assert (Hd2 : (validation_decision args m st0 w0).2 = Ok st1)
      by (rewrite Hd; reflexivity).
    apply validation_decision_state in Hd2 as (Hu & _ & _).
    apply validation_update_state in Hu
      as (Hp & Htd & Hdd & _ & _ & _ & Hv & Hh & Hpat & Htr & Hle & Hs).
    destruct IH as (Hp' & Hv' & Htd' & Hdd' & Hh' & Hpat' & Htr' & Hle' & Hs').
    rewrite Hp', Hv', Htd', Hdd', Hh', Hp, Hv, Htd, Hdd, Hh,
      Bp, Bv, Btd, Bdd, Bh, <- app_assoc.
    rewrite Bpat in Hpat. rewrite Bn in Htr, Hle. rewrite Bs, Bn in Hs.
    repeat split; try tauto; lia.
Qed.

(** X3. Along the loop, through any number of validations that return
    and whatever training does in between, the patience counter stays
    within [0, limit) and the trial counter below the maximum if they were
    so before, the trial counter never decreases, the history grows by
    exactly the validated metrics in their order, and the checkpoint path
    is not changed. *)
Theorem training_run_keeps_counters_in_range (args : Args) (ms : list Q)
    (st st' : train_state) (w w' : world) :
  training_run args ms st w st' w' ->
  0 <= patience st < arg_patience args ->
  num_trial st < arg_max_num_trial args ->
  0 <= patience st' < arg_patience args /\
  num_trial st <= num_trial st' < arg_max_num_trial args /\
  hist_valid_scores st' = hist_valid_scores st ++ ms /\
  model_save_path st' = model_save_path st.
Proof.
  intros Hr Hp Ht.
  destruct (training_run_state args ms st w st' w' Hr)
    as (Hpath & _ & _ & _ & Hh & Hpat & Htr & Hle & _).
  specialize (Hpat Hp). specialize (Htr Ht).
  repeat split; try assumption; lia.
Qed.

(** X4. The scheduler makes exactly one step per trial: along the loop,
    through any number of validations that return, the number of
    scheduler steps grows by the growth of the trial counter. *)
Theorem training_run_one_scheduler_step_per_trial (args : Args)
    (ms : list Q) (st st' : train_state) (w w' : world) :
  training_run args ms st w st' w' ->
  Z.of_nat (scheduler_steps (model st'))
    = Z.of_nat (scheduler_steps (model st)) + (num_trial st' - num_trial st).
Proof.
  intros Hr.
  destruct (training_run_state args ms st w st' w' Hr)
    as (_ & _ & _ & _ & _ & _ & _ & _ & Hs).
  lia.
Qed.

Lemma training_run_world args ms st w st' w' :
  training_run args ms st w st' w' ->
  (exists evs, trace w' = trace w ++ evs /\
               Forall (saves_under (model_save_path st)) evs) /\
  forall k, k <> (model_save_path st ++ "-encoder")%string ->
            k <> (model_save_path st ++ "-decoder")%string ->
            checkpoints w' !! k = checkpoints w !! k.
Proof.
  induction 1 as [st w|m ms st w st0 w0 st1 w1 st' w' Hb Hd Hrun IH].
  - split; [|reflexivity].
    exists []. rewrite app_nil_r. split; [reflexivity | constructor].
  - destruct Hb as (_ & _ & Bp & _ & _ & _ & _ & _ & Bc & evs0 & Bt & Bf).
    pose proof (validation_decision_touches args m st0 w0) as Hto.
    assert (Hd2 : (validation_decision args m st0 w0).2 = Ok st1)
      by (rewrite Hd; reflexivity).
    apply validation_decision_state in Hd2 as (Hu & _ & _).
    apply validation_update_state in Hu as (Hp & _).
    rewrite Hd in Hto. simpl in Hto.
    destruct Hto as ((evs1 & Ht1 & Hs1) & _ & Hc1).
    destruct IH as ((evs2 & Ht2 & Hs2) & Hc2).
    rewrite Hp, Bp in Hs2, Hc2. rewrite Bp in Hs1, Hc1.
    split.
    + exists (evs0 ++ evs1 ++ evs2).
      rewrite Ht2, Ht1, Bt, <- !app_assoc. split; [reflexivity|].
      repeat (apply Forall_app; split); try assumption.
      eapply Forall_impl; [exact Bf|].
      intros ev Hev. destruct ev; simpl; try exact I.
      destruct (Hev _ _ eq_refl).
    + intros k Hk1 Hk2.
      rewrite Hc2, Hc1, Bc by assumption. reflexivity.
Qed.

(** X6. Along the loop, whatever the metrics and whatever training does
    in between, checkpoints are written to the two files of the checkpoint
    path of the state only: every save goes to [path-encoder] or
    [path-decoder], and every other checkpoint file is left as it was. *)
Theorem training_run_saves_under_model_path_only (args : Args)
    (ms : list Q) (st st' : train_state) (w w' : world) :
  training_run args ms st w st' w' ->
  let path := model_save_path st in
  Forall (saves_under path) (new_events w w') /\
  forall k, k <> (path ++ "-encoder")%string ->
            k <> (path ++ "-decoder")%string ->
            checkpoints w' !! k = checkpoints w !! k.
Proof.
  intros Hr. cbv zeta.
  destruct (training_run_world args ms st w st' w' Hr)
    as ((evs & Ht & Hs) & Hc).
  split; [|exact Hc].
  unfold new_events. rewrite Ht, drop_app_length. exact Hs.
Qed.

Lemma training_run_below_limit args ms st w st1 w1 :
  training_run args ms st w st1 w1 ->
  Forall (non_improving (hist_valid_scores st)) ms ->
  patience st + Z.of_nat (length ms) < arg_patience args ->
  num_trial st1 = num_trial st /\
  patience st1 = patience st + Z.of_nat (length ms) /\
  scheduler_steps (model st1) = scheduler_steps (model st) /\
  hist_valid_scores st1 = hist_valid_scores st ++ ms /\
  model_save_path st1 = model_save_path st /\
  checkpoints w1 = checkpoints w.
Proof.
  induction 1 as [st w|m ms st w st0 w0 st1 w1 st' w' Hb Hd Hrun IH];
    intros Hall Hlt.
  - rewrite app_nil_r. simpl. repeat split; lia.
  - apply Forall_cons in Hall as [Hm Hall]. simpl length in Hlt.
    destruct Hb as (_ & _ & Bp & Bn & Bpat & Bh & _ & Bs & Bc & _).
    assert (Hd2 : (validation_decision args m st0 w0).2 = Ok st1)
      by (rewrite Hd; reflexivity).
    apply validation_decision_state in Hd2 as (_ & _ & Hep).
    rewrite validation_decision_patience in Hd;
      [| rewrite Bh; exact Hm | lia | exact Hep].
    injection Hd as <- <-.
    destruct IH as (Hn & Hp & Hs & Hh & Hpath & Hc).
    + simpl. rewrite Bh. eapply Forall_impl; [exact Hall|].
      intros x Hx. apply non_improving_app. exact Hx.
    + simpl. lia.
    + simpl in Hn, Hp, Hs, Hh, Hpath, Hc.
      rewrite Hn, Hp, Hs, Hh, Hpath, Hc, Bn, Bpat, Bs, Bh, Bp, Bc,
        <- app_assoc.
      simpl length. repeat split. lia.
Qed.

(** X5. A trial takes exactly as many consecutive validations without
    improvement as bring the patience counter to the limit: along the
    loop, all of such validations but the last leave the trial counter and
    the scheduler as they were and only count up the patience counter, and
    the last one increments the trial counter, resets the patience counter
    to 0, makes a scheduler step and reloads the parameters of the
    checkpoint. *)
Theorem trial_after_limit_validations (args : Args) (ms : list Q) (m : Q)
    (st st1 st2 : train_state) (w w1 w2 : world) (enc dec : state_dict) :
  training_run args ms st w st1 w1 ->
  training_between st1 w1 st2 w2 ->
  Forall (non_improving (hist_valid_scores st)) (ms ++ [m]) ->
  patience st + Z.of_nat (length (ms ++ [m])) = arg_patience args ->
  num_trial st + 1 <> arg_max_num_trial args ->
  checkpoints w !! (model_save_path st ++ "-encoder")%string = Some enc ->
  checkpoints w !! (model_save_path st ++ "-decoder")%string = Some dec ->
  (num_trial st1 = num_trial st /\
   patience st1 = patience st + Z.of_nat (length ms) /\
   scheduler_steps (model st1) = scheduler_steps (model st)) /\
  exists st3,
    (validation_update args m st2 w2).2 = Ok st3 /\
    num_trial st3 = num_trial st + 1 /\
    patience st3 = 0 /\
    encoder (model st3) = enc /\ decoder (model st3) = dec /\
    scheduler_steps (model st3) = S (scheduler_steps (model st)).
Proof.
  intros Hrun Hb Hall Hlim Hmax Henc Hdec.
  apply Forall_app in Hall as [Hms Hm]. apply Forall_cons in Hm as [Hm _].
  rewrite length_app in Hlim. simpl length in Hlim.
  destruct (training_run_below_limit _ _ _ _ _ _ Hrun Hms)
    as (Hn & Hp & Hs & Hh & Hpath & Hc); [lia|].
  split; [repeat split; assumption|].
  destruct Hb as (_ & _ & Bp & Bn & Bpat & Bh & _ & Bs & Bc & _).
  assert (Hn2 : non_improving (hist_valid_scores st2) m).
  { rewrite Bh, Hh. apply non_improving_app. exact Hm. }
  apply is_better_false in Hn2.
  rewrite (validation_update_worse _ _ _ _ Hn2). cbv zeta.
  replace (patience st2 <? arg_patience args) with true
    by (symmetry; apply Z.ltb_lt; lia).
  replace (patience st2 + 1 =? arg_patience args) with true
    by (symmetry; apply Z.eqb_eq; lia).
  replace (num_trial st2 + 1 =? arg_max_num_trial args) with false
    by (symmetry; apply Z.eqb_neq; lia).
  rewrite Bp, Hpath, Bc, Hc, Henc, Hdec.
  eexists. split; [reflexivity|]. simpl.
  repeat split; try lia; congruence.
Qed.

End Run.

Lemma training_run_keeps_counters_in_range_witness :
  training_run Fixture.args Scenario.metrics Fixture.state0
    Fixture.empty_world Scenario.state4
    (validations Fixture.args Scenario.metrics Fixture.state0
                 Fixture.empty_world).1 /\
  0 <= patience Scenario.state4 < arg_patience Fixture.args /\
  num_trial Fixture.state0 <= num_trial Scenario.state4
    < arg_max_num_trial Fixture.args /\
  hist_valid_scores Scenario.state4
    = hist_valid_scores Fixture.state0 ++ Scenario.metrics /\
  model_save_path Scenario.state4 = model_save_path Fixture.state0.
Proof.
  assert (H : training_run Fixture.args Scenario.metrics Fixture.state0
                Fixture.empty_world Scenario.state4
                (validations Fixture.args Scenario.metrics Fixture.state0
                             Fixture.empty_world).1).
  { apply validations_training_run. vm_compute. reflexivity. }
  split; [exact H|].
  apply (training_run_keeps_counters_in_range _ _ _ _ _ _ H); simpl; lia.
Defined.

Lemma training_run_one_scheduler_step_per_trial_witness :
  training_run Fixture.args Scenario.metrics Fixture.state0
    Fixture.empty_world Scenario.state4
    (validations Fixture.args Scenario.metrics Fixture.state0
                 Fixture.empty_world).1 /\
  Z.of_nat (scheduler_steps (model Scenario.state4))
    = Z.of_nat (scheduler_steps (model Fixture.state0))
      + (num_trial Scenario.state4 - num_trial Fixture.state0).
Proof.
  assert (H : training_run Fixture.args Scenario.metrics Fixture.state0
                Fixture.empty_world Scenario.state4
                (validations Fixture.args Scenario.metrics Fixture.state0
                             Fixture.empty_world).1).
  { apply validations_training_run. vm_compute. reflexivity. }
  split; [exact H|].
  exact (training_run_one_scheduler_step_per_trial _ _ _ _ _ _ H).
Defined.

Lemma training_run_saves_under_model_path_only_witness :
  let w' := (validations Fixture.args Scenario.metrics Fixture.state0
                         Fixture.empty_world).1 in
  training_run Fixture.args Scenario.metrics Fixture.state0
    Fixture.empty_world Scenario.state4 w' /\
  Forall (saves_under "model") (new_events Fixture.empty_world w') /\
  forall k, k <> "model-encoder" -> k <> "model-decoder" ->
            checkpoints w' !! k = checkpoints Fixture.empty_world !! k.
Proof.
  intros w'.
  assert (H : training_run Fixture.args Scenario.metrics Fixture.state0
                Fixture.empty_world Scenario.state4 w').
  { apply validations_training_run. vm_compute. reflexivity. }
  split; [exact H|].
  exact (training_run_saves_under_model_path_only _ _ _ _ _ _ H).
Defined.

Lemma trial_after_limit_validations_witness :
  let w1 := (validations Fixture.args [(-9 # 5)%Q] Scenario.state2
                         Fixture.world_with_model).1 in
  training_run Fixture.args [(-9 # 5)%Q] Scenario.state2
    Fixture.world_with_model Scenario.state3 w1 /\
  (num_trial Scenario.state3 = num_trial Scenario.state2 /\
   patience Scenario.state3 = patience Scenario.state2 + 1 /\
   scheduler_steps (model Scenario.state3)
     = scheduler_steps (model Scenario.state2)) /\
  exists st3,
    (validation_update Fixture.args (-19 # 10)%Q Scenario.state3 w1).2
      = Ok st3 /\
    num_trial st3 = num_trial Scenario.state2 + 1 /\
    patience st3 = 0 /\
    encoder (model st3) = 7 /\ decoder (model st3) = 8 /\
    scheduler_steps (model st3) = S (scheduler_steps (model Scenario.state2)).
Proof.
  intros w1.
  assert (H : training_run Fixture.args [(-9 # 5)%Q] Scenario.state2
                Fixture.world_with_model Scenario.state3 w1).
  { apply validations_training_run. vm_compute. reflexivity. }
  split; [exact H|].
  apply (trial_after_limit_validations Fixture.args [(-9 # 5)%Q]
           (-19 # 10)%Q Scenario.state2 Scenario.state3 Scenario.state3
           Fixture.world_with_model w1 w1 7 8 H).
  - apply training_between_refl.
  - apply Forall_cons; split; [|apply Forall_cons; split; [|constructor]];
      apply Exists_cons_tl, Exists_cons_hd; unfold Qle; simpl; lia.
  - reflexivity.
  - simpl. lia.
  - vm_compute. reflexivity.
  - vm_compute. reflexivity.
Defined.

(** ** Start-up, checkpoints and the decoding driver *)

Section Drivers.
Context `{C : Collaborators}.

(** X8. When the four corpora and the vocabulary are read, the start-up
    of training loads the parameters from the files [model-encoder] and
    [model-decoder], whatever the command line says: it raises
    [FileNotFoundError] for the first of the two that is missing, before
    anything is printed, and otherwise the freshly initialised parameters
    are replaced by the loaded ones, both sub-networks are in evaluation
    mode, the checkpoint path is ['model'] and all counters are 0. *)
Theorem train_startup_loads_model_checkpoint (args : Args) (w : world)
    (a b c d : list (list string)) (v : Vocab) :
  read_corpus (arg_train_src args) "src" = Ok a ->
  read_corpus (arg_train_tgt args) "tgt" = Ok b ->
  read_corpus (arg_dev_src args) "src" = Ok c ->
  read_corpus (arg_dev_tgt args) "tgt" = Ok d ->
  load_vocab (arg_vocab args) = Ok v ->
  train_startup args w =
    match checkpoints w !! "model-encoder",
          checkpoints w !! "model-decoder" with
    | Some enc, Some dec =>
        (printed w [PrintBeginTraining],
         Ok (mkTrainState (zip a b) (zip c d) "model"
               (mkNMT v enc dec false false 0) 0 0 0 0 0 []))
    | None, _ => (w, Raise (FileNotFoundError "model-encoder"))
    | Some _, None => (w, Raise (FileNotFoundError "model-decoder"))
    end.
Proof.
  intros Ha Hb Hc Hd Hv.
  unfold train_startup, bind, lift. rewrite Ha, Hb, Hc, Hd, Hv.
  unfold NMT_init, bind. rewrite NMT_load_run. simpl.
  change ("model" +:+ "-encoder") with "model-encoder".
  change ("model" +:+ "-decoder") with "model-decoder".
  destruct (checkpoints w !! "model-encoder");
    [destruct (checkpoints w !! "model-decoder")|]; reflexivity.
Qed.

(** X9. What [save] writes, [load] reads back: after a model was saved
    under a path, loading from that path into any model succeeds, changes
    no file, and gives the saved encoder and decoder parameters, in
    evaluation mode; and saving a model that was just loaded from a path
    under the same path leaves all checkpoint files as they were. *)
Theorem load_after_save (saved self : NMT) (path : string) (w : world) :
  let w1 := (NMT_save saved path w).1 in
  NMT_load self path w1
    = (w1, Ok (mkNMT (vocab self) (encoder saved) (decoder saved)
                     false false (scheduler_steps self))) /\
  forall m, (NMT_load self path w).2 = Ok m ->
            checkpoints (NMT_save m path w).1 = checkpoints w.
Proof.
  cbv zeta. split.
  - rewrite NMT_load_run. unfold NMT_save, bind, torch_save. simpl.
    rewrite lookup_insert_ne by apply encoder_path_neq.
    rewrite !lookup_insert_eq. reflexivity.
  - intros m. rewrite NMT_load_run.
    destruct (checkpoints w !! (path ++ "-encoder")%string) as [enc|] eqn:He;
      [|discriminate].
    destruct (checkpoints w !! (path ++ "-decoder")%string) as [dec|] eqn:Hd;
      [|discriminate].
    simpl. intros [= <-]. unfold NMT_save, bind, torch_save. simpl.
    rewrite (insert_id _ _ _ He). apply insert_id. exact Hd.
Qed.

(** X10. [decode] never succeeds and never produces anything: it raises,
    it leaves every text file and every checkpoint file as it was (the
    output file is neither created nor truncated), and it prints nothing
    but the line that announces the loading of the model; in particular no
    BLEU score.  When the test corpora are read, what it raises is the
    [TypeError] of the call [NMT.load(MODEL_PATH)], which lacks the
    argument [model_path]. *)
Theorem decode_fails_before_any_output (args : Args) (w : world) :
  let w' := (decode args w).1 in
  exists e,
    (decode args w).2 = Raise e /\
    text_files w' = text_files w /\
    checkpoints w' = checkpoints w /\
    (forall ev, ev ∈ new_events w w' ->
                ev = PrintLoadModelFrom (arg_MODEL_PATH args)) /\
    (is_ok (read_corpus (arg_TEST_SOURCE_FILE args) "src") = true ->
     (forall f, given (arg_TEST_TARGET_FILE args) = Some f ->
                is_ok (read_corpus f "tgt") = true) ->
     e = TypeError_missing "load" ["model_path"] /\
     new_events w w' = [PrintLoadModelFrom (arg_MODEL_PATH args)]).
Proof.
  cbv zeta. unfold decode, bind, lift.
  destruct (read_corpus (arg_TEST_SOURCE_FILE args) "src") as [src|e1];
    [destruct (given (arg_TEST_TARGET_FILE args)) as [f|];
     [destruct (read_corpus f "tgt") as [tgt|e2] eqn:E2|]|];
    simpl; eexists; (split; [reflexivity|]);
    (split; [reflexivity|]); (split; [reflexivity|]); split.
  - intros ev. unfold new_events. simpl. rewrite drop_app_length.
    intros Hin. apply list_elem_of_singleton in Hin. exact Hin.
  - intros _ _. split; [reflexivity|].
    unfold new_events. simpl. apply drop_app_length.
  - intros ev. rewrite new_events_refl. intros Hin. inversion Hin.
  - intros _ Hf. specialize (Hf f eq_refl). rewrite E2 in Hf.
    discriminate.
  - intros ev. unfold new_events. simpl. rewrite drop_app_length.
    intros Hin. apply list_elem_of_singleton in Hin. exact Hin.
  - intros _ _. split; [reflexivity|].
    unfold new_events. simpl. apply drop_app_length.
  - intros ev. rewrite new_events_refl. intros Hin. inversion Hin.
  - discriminate.
Qed.

(** X11. The call of [load] through the class returns a value only when
    it is given an instance and a path whose two files exist, and the
    value is then [None], never a model; and the driver [beam_search]
    raises [AttributeError] on every value, a model included, also when
    there is no sentence to translate: it reads the attribute [training],
    which no value has. *)
Theorem load_through_class_returns_none (actuals : list pyval) (w : world)
    (v : pyval) :
  (NMT_load_function actuals w).2 = Ok v ->
  v = VNone /\
  (exists self path,
     actuals = [VModel self; VStr path] /\
     is_Some (checkpoints w !! (path ++ "-encoder")%string) /\
     is_Some (checkpoints w !! (path ++ "-decoder")%string)) /\
  forall test_data_src beam_size max_decoding_time_step,
    beam_search v test_data_src beam_size max_decoding_time_step
    = Raise (AttributeError
               "'NoneType' object has no attribute 'training'") /\
    forall m,
      beam_search (VModel m) test_data_src beam_size max_decoding_time_step
      = Raise (AttributeError "'NMT' object has no attribute 'training'").
Proof.
  unfold NMT_load_function, bind, lift, bind_two.
  destruct actuals as [|a [|b [|c rest]]]; simpl; try discriminate.
  destruct a as [| | |self| | |]; simpl; try discriminate;
    try (destruct b; discriminate).
  destruct b as [| |path| | | |]; simpl; try discriminate.
  rewrite NMT_load_run.
  destruct (checkpoints w !! (path ++ "-encoder")%string) as [enc|] eqn:He;
    [|discriminate].
  destruct (checkpoints w !! (path ++ "-decoder")%string) as [dec|] eqn:Hd;
    [|discriminate].
  simpl. intros [= <-]. split; [reflexivity|]. split.
  - exists self, path. rewrite He, Hd. repeat split; eexists; reflexivity.
  - intros. split; [reflexivity|]. intros. reflexivity.
Qed.

End Drivers.

Lemma train_startup_loads_model_checkpoint_witness :
  train_startup Fixture.args Fixture.world_with_model =
    (printed Fixture.world_with_model [PrintBeginTraining],
     Ok (@mkTrainState Fixture.collaborators
           (zip [["a"]; ["b"; "c"]]
                [["<s>"; "x"; "</s>"]; ["<s>"; "yy"; "x"; "</s>"]])
           (zip [["a"]; ["b"; "c"]]
                [["<s>"; "x"; "</s>"]; ["<s>"; "yy"; "x"; "</s>"]])
           "model" (@mkNMT Fixture.collaborators tt 7 8 false false 0)
           0 0 0 0 0 [])).
Proof.
  exact (train_startup_loads_model_checkpoint Fixture.args
           Fixture.world_with_model _ _ _ _ tt
           eq_refl eq_refl eq_refl eq_refl eq_refl).
Defined.

Lemma load_through_class_returns_none_witness :
  (NMT_load_function [VModel Fixture.nmt; VStr "model"]
                     Fixture.world_with_model).2 = Ok VNone /\
  beam_search (@VNone Fixture.collaborators) [["a"]] 5 70
  = Raise (AttributeError "'NoneType' object has no attribute 'training'").
Proof.
  assert (H : (NMT_load_function [VModel Fixture.nmt; VStr "model"]
                                 Fixture.world_with_model).2 = Ok VNone)
    by (vm_compute; reflexivity).
  split; [exact H|].
  destruct (load_through_class_returns_none _ _ _ H) as (_ & _ & Hb).
  apply (Hb [["a"]] 5 70).
Defined.

(** ** More on the scorer *)

Lemma slice_inner {A} (l : list A) :
  Py.slice (Some 1) (Some (-1)) l = removelast (tail l).
Proof.
  destruct l as [|a t]; [reflexivity|].
  unfold Py.slice, Py.clip.
  replace (-1 <? 0) with true by reflexivity.
  replace (1 <? 0) with false by reflexivity.
  replace (Z.to_nat (Z.max 0 (-1 + Z.of_nat (length (a :: t)))))
    with (length t) by (simpl length; lia).
  replace (Z.to_nat (Z.min 1 (Z.of_nat (length (a :: t))))) with 1%nat
    by (simpl length; lia).
  simpl. rewrite removelast_firstn_len. f_equal. lia.
Qed.

(** X12. The scorer raises [IndexError], without calling [corpus_bleu],
    exactly when there is no reference or the first reference is empty;
    empty references further down the list do not matter. *)
Theorem scorer_fails_iff_no_first_token {H bleu : Type}
    (corpus_bleu : list (list (list string)) -> list H -> bleu)
    (references : list (list string)) (hypotheses : list H) :
  (compute_corpus_level_bleu_score corpus_bleu references hypotheses
   = Raise (IndexError "list index out of range")
   <-> references = [] \/ exists rest, references = [] :: rest) /\
  (is_ok (compute_corpus_level_bleu_score corpus_bleu references hypotheses)
   = true
   <-> exists tok0 ref0 rest, references = (tok0 :: ref0) :: rest).
Proof.
  rewrite scorer_unfolded.
  destruct references as [|[|tok0 ref0] rest]; simpl.
  - split; split; try discriminate; eauto.
    intros (? & ? & ? & ?). discriminate.
  - split; split; try discriminate; eauto.
    intros (? & ? & ? & ?). discriminate.
  - split; split; try discriminate; eauto.
    intros [?|[? ?]]; discriminate.
Qed.

(** X13. Whether the references are stripped is decided by the first
    token of the first reference alone.  If it is ['<s>'], every reference
    loses its first and its last token, whatever these are; if it is not,
    every reference is scored as it is, sentinels included.  The
    hypotheses are passed on unchanged in both cases. *)
Theorem scorer_decides_on_first_reference {H bleu : Type}
    (corpus_bleu : list (list (list string)) -> list H -> bleu)
    (tok0 : string) (ref0 : list string) (rest : list (list string))
    (hypotheses : list H) :
  compute_corpus_level_bleu_score corpus_bleu ((tok0 :: ref0) :: rest)
                                  hypotheses
  = Ok (corpus_bleu
          ((fun ref => [if String.eqb tok0 "<s>"
                        then removelast (tail ref) else ref])
             <$> ((tok0 :: ref0) :: rest))
          hypotheses).
Proof.
  rewrite scorer_unfolded. do 2 f_equal.
  destruct (String.eqb tok0 "<s>"); [|reflexivity].
  rewrite <- list_fmap_compose. apply list_fmap_ext.
  intros i ref _. simpl. rewrite slice_inner. reflexivity.
Qed.

(** ** The shape of a padded batch *)

(** X14. Whenever [sent_padding] returns, all three matrices have as many
    rows as there are source sentences and the two lists of lengths have as
    many entries as there are pairs of a source and a target sentence; the
    source matrix has the width of the longest source sentence and both
    decoder matrices have the width of the longest full target sentence;
    and the rows that have no pair, when there are fewer target than
    source sentences, are all zero. *)
Theorem sent_padding_shape (src_sents tgt_sents : list (list Z))
    (p : padded) :
  sent_padding src_sents tgt_sents = Ok p ->
  let b := length src_sents in
  let n := (length src_sents `min` length tgt_sents)%nat in
  let ws := max_list (length <$> src_sents) in
  let wt := max_list (length <$> tgt_sents) in
  (length (padded_src_sents p) = b /\ length (padded_Yinput p) = b /\
   length (padded_Ytarget p) = b) /\
  (length (src_lens p) = n /\ length (tgt_lens p) = n) /\
  (Forall (fun row => length row = ws) (padded_src_sents p) /\
   Forall (fun row => length row = wt) (padded_Yinput p) /\
   Forall (fun row => length row = wt) (padded_Ytarget p)) /\
  forall i, (n <= i < b)%nat ->
    padded_src_sents p !! i = Some (replicate ws 0) /\
    padded_Yinput p !! i = Some (replicate wt 0) /\
    padded_Ytarget p !! i = Some (replicate wt 0).
Proof.
  intros Hp.
  assert (Hs : src_sents ≠ []) by (intros ->; discriminate).
  assert (Ht : tgt_sents ≠ []).
  { intros ->. destruct src_sents; discriminate. }
  rewrite (sent_padding_closed_form _ _ Hs Ht) in Hp. cbv zeta in Hp.
  injection Hp as <-. cbv zeta.
  cbn [padded_src_sents padded_Yinput padded_Ytarget src_lens tgt_lens].
  assert (Hlen : length (zip src_sents tgt_sents)
                 = (length src_sents `min` length tgt_sents)%nat)
    by apply length_zip_with.
  assert (Hsrc : forall s t, (s, t) ∈ zip src_sents tgt_sents ->
            (length s <= max_list (length <$> src_sents))%nat).
  { intros s t Hin. apply max_list_elem_of_le, list_elem_of_fmap_2.
    eapply elem_of_zip_l; eassumption. }
  assert (Htgt : forall s t, (s, t) ∈ zip src_sents tgt_sents ->
            (length t <= max_list (length <$> tgt_sents))%nat).
  { intros s t Hin. apply max_list_elem_of_le, list_elem_of_fmap_2.
    eapply elem_of_zip_r; eassumption. }
  split; [|split; [|split; [|]]].
  - unfold Np.zeros.
    rewrite !length_app, !length_fmap, !length_replicate, Hlen. lia.
  - rewrite !length_fmap, Hlen. split; reflexivity.
  - split; [|split]; apply Forall_app; split;
      try (apply Forall_replicate, length_replicate);
      apply Forall_fmap, Forall_forall; intros [s t] Hin; simpl;
      apply length_pad_row.
    + eapply Hsrc; eassumption.
    + rewrite length_removelast. specialize (Htgt _ _ Hin). lia.
    + rewrite length_tail. specialize (Htgt _ _ Hin). lia.
  - intros i Hi. unfold Np.zeros.
    rewrite !lookup_app_r by (rewrite length_fmap, Hlen; lia).
    rewrite !length_fmap, Hlen.
    repeat split; apply lookup_replicate_2; lia.
Qed.

Lemma sent_padding_shape_witness :
  exists p,
    sent_padding [[4; 5]; [4; 5; 6]] [[1; 7; 8; 2]] = Ok p /\
    length (padded_Yinput p) = 2%nat /\
    length (tgt_lens p) = 1%nat /\
    Forall (fun row => length row = 4%nat) (padded_Yinput p) /\
    padded_Yinput p !! 1%nat = Some (replicate 4 0).
Proof.
  eexists. split; [reflexivity|].
  destruct (sent_padding_shape [[4; 5]; [4; 5; 6]] [[1; 7; 8; 2]] _ eq_refl)
    as ((_ & Hrows & _) & (_ & Hlens) & (_ & Hwidth & _) & Hzero).
  split; [exact Hrows|]. split; [exact Hlens|]. split; [exact Hwidth|].
  apply (Hzero 1%nat). simpl. lia.
Defined.

(** ** The evaluation: [evaluate_ppl] *)

Lemma string_app_assoc (a b c : string) :
  ((a ++ b) ++ c)%string = (a ++ (b ++ c))%string.
Proof.
  induction a as [|x a IH]; [reflexivity|].
  change (String x ((a ++ b) ++ c) = String x (a ++ (b ++ c)))%string.
  f_equal. exact IH.
Qed.

Lemma string_app_nil_r (a : string) : (a ++ "")%string = a.
Proof.
  induction a as [|x a IH]; [reflexivity|].
  change (String x (a ++ "") = String x a)%string.
  f_equal. exact IH.
Qed.

Lemma getitem_nat {A} (l : list A) (k : nat) (x : A) :
  l !! k = Some x -> Py.getitem l (Z.of_nat k) = Ok x.
Proof.
  intros H. pose proof (lookup_lt_Some _ _ _ H) as Hlt.
  assert (H0 : (Z.of_nat k <? 0) = false) by (apply Z.ltb_ge; lia).
  assert (H1 : (Z.of_nat (length l) <=? Z.of_nat k) = false)
    by (apply Z.leb_gt; lia).
  unfold Py.getitem. cbv zeta. rewrite H0. cbv iota. rewrite H0, H1.
  cbn [orb]. rewrite Nat2Z.id, H. reflexivity.
Qed.

Lemma setitem_nat {A} (l : list A) (i : nat) (x : A) :
  (i < length l)%nat -> Py.setitem l (Z.of_nat i) x = Ok (<[i := x]> l).
Proof.
  intros Hlt.
  assert (H0 : (Z.of_nat i <? 0) = false) by (apply Z.ltb_ge; lia).
  assert (H1 : (Z.of_nat (length l) <=? Z.of_nat i) = false)
    by (apply Z.leb_gt; lia).
  unfold Py.setitem. cbv zeta. rewrite H0. cbv iota. rewrite H0, H1.
  cbn [orb]. rewrite Nat2Z.id. reflexivity.
Qed.

Lemma all_some {A} (l : list (option A)) :
  (forall i, (i < length l)%nat -> exists x, l !! i = Some (Some x)) ->
  exists l', l = Some <$> l'.
Proof.
  induction l as [|o l IH]; intros H.
  - exists []. reflexivity.
  - destruct (H 0%nat) as (x & Hx); [simpl; lia|]. simpl in Hx.
    destruct IH as (l' & ->).
    { intros i Hi. apply (H (S i)). simpl. lia. }
    exists (x :: l'). injection Hx as ->. reflexivity.
Qed.

Section Evaluation.
Context `{C : Collaborators}.
Variable self : NMT.

Lemma word_seq_loop_words pre ws :
  Forall (fun idx => idx <> 2) pre ->
  Forall2 (fun idx w => tgt_id2word (vocab self) idx = Ok w) pre ws ->
  forall rest acc,
    word_seq_loop self (pre ++ rest) acc
    = word_seq_loop self rest (acc ++ ws).
Proof.
  intros Hne Hw. induction Hw as [|idx w pre ws Hidx Hw IH];
    intros rest acc.
  - rewrite app_nil_r. reflexivity.
  - apply Forall_cons in Hne as [Hidx2 Hne]. simpl.
    replace (idx =? 2) with false by (symmetry; apply Z.eqb_neq; exact Hidx2).
    rewrite Hidx. simpl. rewrite (IH Hne), <- app_assoc. reflexivity.
Qed.

(** X15. The words of a hypothesis are those of the symbols in front of
    the first symbol 2, the end token: the symbols behind it are not looked
    at, not even to find out whether they have a word; a row without a
    symbol 2 is turned into words as a whole. *)
Theorem word_seq_stops_at_end_token (pre post : list Z) (ws acc : list string) :
  Forall (fun idx => idx <> 2) pre ->
  Forall2 (fun idx w => tgt_id2word (vocab self) idx = Ok w) pre ws ->
  word_seq_loop self (pre ++ 2 :: post) acc = Ok (acc ++ ws) /\
  word_seq_loop self pre acc = Ok (acc ++ ws).
Proof.
  intros Hne Hw. split.
  - rewrite (word_seq_loop_words pre ws Hne Hw). reflexivity.
  - rewrite <- (app_nil_r pre) at 1.
    rewrite (word_seq_loop_words pre ws Hne Hw). reflexivity.
Qed.

(** The loop over the rows of symbols of one batch. *)
Lemma symbols_loop_spec (oi : list Z) :
  forall symbols words,
    Forall2 (fun sent ws => word_seq_loop self sent [] = Ok ws) symbols words ->
  forall (k : nat) hc (b : list (option (list string))),
    (forall j, (j < length symbols)%nat ->
       exists i : nat, oi !! (k + j)%nat = Some (Z.of_nat i) /\
                       (i < length b)%nat) ->
    (forall j1 j2 x, (j1 < length symbols)%nat -> (j2 < length symbols)%nat ->
       oi !! (k + j1)%nat = Some x -> oi !! (k + j2)%nat = Some x ->
       j1 = j2) ->
    exists b',
      symbols_loop self oi symbols (Z.of_nat k) hc b = Ok (hc ++ words, b') /\
      length b' = length b /\
      (forall pos : nat,
         (forall j, (j < length symbols)%nat ->
                    oi !! (k + j)%nat <> Some (Z.of_nat pos)) ->
         b' !! pos = b !! pos) /\
      (forall (j i : nat) ws,
         words !! j = Some ws -> oi !! (k + j)%nat = Some (Z.of_nat i) ->
         b' !! i = Some (Some ws)).
Proof.
  intros symbols words Hw.
  induction Hw as [|sent ws symbols words Hsent Hw IH]; intros k hc b Hin Hinj.
  - exists b. simpl. rewrite app_nil_r. repeat split.
    intros j i ws Hj. rewrite lookup_nil in Hj. discriminate.
  - destruct (Hin 0%nat) as (i0 & Hi0 & Hlt0); [simpl; lia|].
    rewrite Nat.add_0_r in Hi0.
    simpl symbols_loop. rewrite Hsent. cbn [mbind result_bind].
    rewrite (getitem_nat _ _ _ Hi0). cbn [mbind result_bind].
    rewrite (setitem_nat _ _ _ Hlt0). cbn [mbind result_bind].
    replace (Z.of_nat k + 1) with (Z.of_nat (S k)) by lia.
    destruct (IH (S k) (hc ++ [ws]) (<[i0 := Some ws]> b))
      as (b' & Hrun & Hlen & Hframe & Hpos).
    + intros j Hj. destruct (Hin (S j)) as (i & Hi & Hlt); [simpl; lia|].
      exists i. rewrite length_insert.
      replace (S k + j)%nat with (k + S j)%nat by lia. split; assumption.
    + intros j1 j2 x Hj1 Hj2 H1 H2.
      assert (S j1 = S j2); [|lia].
      apply (Hinj (S j1) (S j2) x); simpl; try lia.
      * replace (k + S j1)%nat with (S k + j1)%nat by lia. exact H1.
      * replace (k + S j2)%nat with (S k + j2)%nat by lia. exact H2.
    + exists b'. rewrite Hrun, <- app_assoc. simpl.
      split; [reflexivity|]. rewrite Hlen, length_insert.
      split; [reflexivity|]. split.
      * intros pos Hpos'. rewrite Hframe.
        -- apply list_lookup_insert_ne. intros ->.
           apply (Hpos' 0%nat); [simpl; lia|].
           rewrite Nat.add_0_r. exact Hi0.
        -- intros j Hj. replace (S k + j)%nat with (k + S j)%nat by lia.
           apply Hpos'. simpl. lia.
      * intros j i ws' Hj Hi. destruct j as [|j].
        -- simpl in Hj. injection Hj as <-.
           rewrite Nat.add_0_r, Hi0 in Hi. injection Hi as Hi.
           apply Nat2Z.inj in Hi. subst i.
           rewrite Hframe.
           ++ apply list_lookup_insert_eq. exact Hlt0.
           ++ intros j Hj Hc.
              assert (S j = 0)%nat; [|lia].
              apply (Hinj (S j) 0%nat (Z.of_nat i0)); simpl; try lia.
              ** replace (k + S j)%nat with (S k + j)%nat by lia. exact Hc.
              ** rewrite Nat.add_0_r. exact Hi0.
        -- simpl in Hj. apply (Hpos j i ws' Hj).
           replace (S k + j)%nat with (k + S j)%nat by lia. exact Hi.
Qed.

End Evaluation.

Section EvaluationRun.
Context `{C : Collaborators}.
Variable self : NMT.

(** The hypotheses of one batch, put back in their original order. *)
Lemma batch_hyps_restored (oi : list Z) symbols words hc :
  Forall2 (fun sent ws => word_seq_loop self sent [] = Ok ws) symbols words ->
  oi ≡ₚ Z.of_nat <$> seq 0 (length symbols) ->
  exists ord,
    restored oi words ord /\
    symbols_loop self oi symbols 0 hc (replicate (length symbols) None)
    = Ok (hc ++ words, Some <$> ord).
Proof.
  intros Hw Hperm.
  pose proof (Forall2_length _ _ _ Hw) as Hlw.
  assert (Hlen_oi : length oi = length symbols).
  { rewrite Hperm, length_fmap, length_seq. reflexivity. }
  assert (Hnd : NoDup oi).
  { rewrite Hperm. apply (NoDup_fmap_2 _), NoDup_seq. }
  assert (Hrange : forall j x, oi !! j = Some x ->
             exists i : nat, x = Z.of_nat i /\ (i < length symbols)%nat).
  { intros j x Hx. apply list_elem_of_lookup_2 in Hx. rewrite Hperm in Hx.
    apply list_elem_of_fmap in Hx as (i & -> & Hi).
    apply elem_of_seq in Hi. exists i. split; [reflexivity | lia]. }
  assert (Hsurj : forall i, (i < length symbols)%nat ->
             exists j, oi !! j = Some (Z.of_nat i)).
  { intros i Hi. apply list_elem_of_lookup_1. rewrite Hperm.
    apply list_elem_of_fmap_2, elem_of_seq. lia. }
  destruct (symbols_loop_spec self oi symbols words Hw 0 hc
              (replicate (length symbols) None))
    as (b' & Hrun & Hlen & _ & Hpos).
  - intros j Hj. destruct (lookup_lt_is_Some_2 oi j) as [x Hx]; [lia|].
    destruct (Hrange _ _ Hx) as (i & -> & Hi). exists i.
    rewrite length_replicate. split; assumption.
  - intros j1 j2 x _ _ H1 H2. eapply NoDup_lookup; eassumption.
  - rewrite length_replicate in Hlen.
    destruct (all_some b') as (ord & ->).
    { intros i Hi. rewrite Hlen in Hi. destruct (Hsurj i Hi) as (j & Hj).
      pose proof (lookup_lt_Some _ _ _ Hj) as Hjlt.
      destruct (lookup_lt_is_Some_2 words j) as [ws Hws]; [lia|].
      exists ws. apply (Hpos j i ws Hws). exact Hj. }
    exists ord. split; [|exact Hrun].
    split.
    + rewrite length_fmap in Hlen. lia.
    + intros j i ws Hj Hws. specialize (Hpos j i ws Hws Hj).
      rewrite list_lookup_fmap in Hpos.
      destruct (ord !! i); simpl in Hpos; congruence.
Qed.

(** The loop over the batches. *)
Lemma batches_loop_spec : forall batches results,
  Forall2 (batch_evaluates self) batches results ->
  forall acc,
  exists ordered,
    Forall2 (fun br ord => restored br.1.2 br.2.2 ord)
            (zip batches results) ordered /\
    length (concat ordered) = length (concat (batches.*1.*2)) /\
    batches_loop self batches acc
    = Ok (mkEvalAcc
            (ref_corpus acc ++ concat (batches.*1.*2))
            (hyp_corpus acc ++ concat (results.*2))
            (hyp_corpus_ordered acc ++ (Some <$> concat ordered))
            (foldl Qplus (cum_loss acc) (results.*1))
            (count acc + Z.of_nat (length batches))).
Proof.
  intros batches results HF.
  induction HF as [|[[src tgt] oi] [loss hyps] batches results Hb HF IH];
    intros acc.
  - exists []. split; [constructor|]. split; [reflexivity|].
    destruct acc. simpl. rewrite !app_nil_r, Z.add_0_r. reflexivity.
  - destruct Hb as (symbols & Hfwd & Hw & Htgt & Hperm).
    cbn [fst snd] in Hfwd, Hw, Htgt, Hperm.
    destruct (batch_hyps_restored oi symbols hyps (hyp_corpus acc) Hw Hperm)
      as (ord & Hres & Hrun).
    destruct (IH (mkEvalAcc (ref_corpus acc ++ tgt)
                            (hyp_corpus acc ++ hyps)
                            (hyp_corpus_ordered acc ++ (Some <$> ord))
                            (cum_loss acc + loss)%Q (count acc + 1)))
      as (ordered & HFo & Hlen & Hrest).
    exists (ord :: ordered). split; [constructor; assumption|]. split.
    + rewrite !fmap_cons. cbn [concat fst snd].
      rewrite !length_app, Hlen.
      destruct Hres as [Hlo _].
      pose proof (Forall2_length _ _ _ Hw). lia.
    + cbn [batches_loop]. rewrite Hfwd. cbn [mbind result_bind].
      rewrite Hrun. cbn [mbind result_bind fst snd].
      rewrite Hrest, !fmap_cons.
      cbn [concat fst snd foldl ref_corpus hyp_corpus hyp_corpus_ordered
           cum_loss count length].
      rewrite fmap_app, <- !app_assoc.
      do 2 f_equal. lia.
Qed.

(** The loop that writes the lines. *)
Lemma write_loop_lines path : forall hyps (refs : list (list string))
    (w : world) s,
  length refs = length hyps ->
  text_files w !! path = Some s ->
  write_loop path (zip refs (Some <$> hyps)) w
  = (mkWorld (checkpoints w)
             (<[path := (s ++ lines_of hyps)%string]> (text_files w))
             (trace w), Ok tt).
Proof.
  induction hyps as [|h hyps IH]; intros refs w s Hlen Hs.
  - destruct refs; [|discriminate]. simpl.
    rewrite string_app_nil_r, (insert_id _ _ _ Hs).
    destruct w; reflexivity.
  - destruct refs as [|r refs]; [discriminate|]. simpl in Hlen.
    simpl. unfold bind at 1. unfold write at 1. rewrite Hs. simpl.
    rewrite (IH refs _ (s ++ (Py.join " " h ++ newline))%string);
      [| lia | apply lookup_insert_eq].
    simpl. rewrite insert_insert_eq, string_app_assoc. reflexivity.
Qed.

(** X16. When the evaluation goes through on every batch and the first
    reference has a first token, [evaluate_ppl] returns the sum of the
    losses of the batches divided by the number of batches, and it appends
    to the file ['decode.txt'], keeping what the file held, one line per
    dev sentence: the lines are the hypotheses, batch after batch, each
    batch put back in its original order (the hypothesis of row [j] at
    position [orig_indices[j]]).  The references keep the order of the
    batches, and so do the hypotheses that are scored against them. *)
Theorem evaluate_ppl_appends_hypotheses
    (dev_data : list (list string * list string)) (batch_size : Z)
    (w : world) (results : list (Q * list (list string))) :
  let batches := batch_iter dev_data batch_size in
  let refs := concat (batches.*1.*2) in
  Forall2 (batch_evaluates self) batches results ->
  (exists tok ref rest, refs = (tok :: ref) :: rest) ->
  exists ordered bleu_score,
    Forall2 (fun br ord => restored br.1.2 br.2.2 ord)
            (zip batches results) ordered /\
    length (concat ordered) = length refs /\
    compute_corpus_level_bleu_score (corpus_bleu (list string)) refs
                                    (concat (results.*2)) = Ok bleu_score /\
    evaluate_ppl self dev_data batch_size w
    = (mkWorld (checkpoints w)
         (<["decode.txt" :=
              (default "" (text_files w !! "decode.txt")
               ++ lines_of (concat ordered))%string]> (text_files w))
         (trace w ++ [PrintBleuScore bleu_score]),
       Ok (foldl Qplus 0 (results.*1)
           / inject_Z (Z.of_nat (length batches)))%Q).
Proof.
  cbv zeta. intros HF (tok & ref & rest & Hrefs).
  destruct (batches_loop_spec _ _ HF (mkEvalAcc [] [] [] 0%Q 0))
    as (ordered & HFo & Hlen & Hrun).
  simpl in Hrun.
  assert (Hbleu : exists bleu_score,
            compute_corpus_level_bleu_score (corpus_bleu (list string))
              (concat ((batch_iter dev_data batch_size).*1.*2))
              (concat (results.*2)) = Ok bleu_score).
  { rewrite scorer_unfolded, Hrefs. eexists. reflexivity. }
  destruct Hbleu as (bleu_score & Hbleu).
  exists ordered, bleu_score.
  split; [exact HFo|]. split; [exact Hlen|]. split; [exact Hbleu|].
  unfold evaluate_ppl, bind, lift. rewrite Hrun.
  cbn [ref_corpus hyp_corpus hyp_corpus_ordered cum_loss count].
  unfold open_append at 1.
  rewrite (write_loop_lines "decode.txt" (concat ordered) _ _
             (default "" (text_files w !! "decode.txt")));
    [| symmetry; exact Hlen | apply lookup_insert_eq].
  cbn [checkpoints text_files trace]. rewrite insert_insert_eq, Hbleu.
  unfold print at 1.
  cbn [checkpoints text_files trace].
  assert (Hne : (Z.of_nat (length (batch_iter dev_data batch_size)) =? 0)
                = false).
  { apply Z.eqb_neq. destruct (batch_iter dev_data batch_size);
      [discriminate | simpl; lia]. }
  rewrite !Z.add_0_l, Hne. reflexivity.
Qed.

(** X17. When [batch_iter] yields no batch, as on empty dev data,
    [evaluate_ppl] opens ['decode.txt'], which creates the file if it was
    not there and keeps its content if it was, writes no line, and then
    raises the [IndexError] of the scorer on an empty list of references;
    the division by the count 0 is not reached. *)
Theorem evaluate_ppl_without_batches
    (dev_data : list (list string * list string)) (batch_size : Z)
    (w : world) :
  batch_iter dev_data batch_size = [] ->
  evaluate_ppl self dev_data batch_size w
  = (mkWorld (checkpoints w)
       (<["decode.txt" := default "" (text_files w !! "decode.txt")]>
          (text_files w))
       (trace w),
     Raise (IndexError "list index out of range")).
Proof.
  intros H. unfold evaluate_ppl, bind, lift. rewrite H. reflexivity.
Qed.

End EvaluationRun.

Lemma word_seq_stops_at_end_token_witness :
  word_seq_loop Fixture.nmt ([4; 5] ++ 2 :: [0; -1]) [] = Ok ([] ++ ["x"; "yy"]) /\
  word_seq_loop Fixture.nmt [4; 5] [] = Ok ([] ++ ["x"; "yy"]).
Proof.
  apply (word_seq_stops_at_end_token Fixture.nmt [4; 5] [0; -1] ["x"; "yy"] []).
  - repeat constructor; discriminate.
  - repeat constructor.
Defined.

Lemma evaluate_ppl_appends_hypotheses_witness :
  let batches := @batch_iter Fixture.collaborators Fixture.dev 128 in
  let results :=
    [((2 # 1)%Q, [["<s>"; "yy"; "x"; "<pad>"]; ["<s>"; "x"; "<pad>"; "<pad>"]])] in
  let refs := concat (batches.*1.*2) in
  exists ordered bleu_score,
    Forall2 (fun br ord => restored br.1.2 br.2.2 ord)
            (zip batches results) ordered /\
    length (concat ordered) = length refs /\
    compute_corpus_level_bleu_score
      (@corpus_bleu Fixture.collaborators (list string)) refs
      (concat (results.*2)) = Ok bleu_score /\
    evaluate_ppl Fixture.nmt Fixture.dev 128 Fixture.empty_world
    = (@mkWorld Fixture.collaborators (checkpoints Fixture.empty_world)
         (<["decode.txt" :=
              (default "" (text_files Fixture.empty_world !! "decode.txt")
               ++ lines_of (concat ordered))%string]>
            (text_files Fixture.empty_world))
         (trace Fixture.empty_world ++ [PrintBleuScore bleu_score]),
       Ok (foldl Qplus 0 (results.*1)
           / inject_Z (Z.of_nat (length batches)))%Q).
Proof.
  intros batches results refs.
  apply (evaluate_ppl_appends_hypotheses Fixture.nmt Fixture.dev 128
           Fixture.empty_world results).
  - constructor; [|constructor].
    exists [[1; 5; 4; 0]; [1; 4; 0; 0]].
    split; [vm_compute; reflexivity|].
    split; [repeat constructor|].
    split; [reflexivity|].
    apply perm_swap.
  - eexists _, _, _. vm_compute. reflexivity.
Defined.

Lemma evaluate_ppl_without_batches_witness :
  evaluate_ppl Fixture.nmt [] 128 Fixture.empty_world
  = (@mkWorld Fixture.collaborators (checkpoints Fixture.empty_world)
       (<["decode.txt" :=
            default "" (text_files Fixture.empty_world !! "decode.txt")]>
          (text_files Fixture.empty_world))
       (trace Fixture.empty_world),
     Raise (IndexError "list index out of range")).
Proof.
  apply (evaluate_ppl_without_batches Fixture.nmt [] 128 Fixture.empty_world).
  reflexivity.
Defined.

(** ** Further properties of the schedule and of the drivers *)

Section More.
Context `{C : Collaborators}.

Lemma validation_decision_no_patience args m st w :
  arg_patience args <= 0 -> 0 <= patience st ->
  (epoch st <> arg_max_epoch args ->
   exists st',
     (validation_decision args m st w).2 = Ok st' /\
     num_trial st' = num_trial st /\ model st' = model st /\
     0 <= patience st' /\ epoch st' = epoch st) /\
  (forall e, (validation_decision args m st w).2 = Raise e ->
             e = SystemExit 0 /\ epoch st = arg_max_epoch args).
Proof.
  intros HP Hp. rewrite validation_decision_run.
  assert (Hu : exists w1 st1,
            validation_update args m st w = (w1, Ok st1) /\
            num_trial st1 = num_trial st /\ model st1 = model st /\
            0 <= patience st1 /\ epoch st1 = epoch st).
  { destruct (is_better_cases (hist_valid_scores st) m) as [[_ Hb]|[_ Hb]].
    - rewrite (validation_update_better _ _ _ _ Hb).
      eexists _, _. split; [reflexivity|]. simpl. repeat split; lia.
    - rewrite (validation_update_worse _ _ _ _ Hb). cbv zeta.
      replace (patience st <? arg_patience args) with false
        by (symmetry; apply Z.ltb_ge; lia).
      eexists _, _. split; [reflexivity|]. simpl. repeat split; lia. }
  destruct Hu as (w1 & st1 & -> & Hn & Hm & Hp1 & He).
  destruct (Z.eqb_spec (epoch st1) (arg_max_epoch args)) as [Heq|Hne].
  - split.
    + intros Hep. congruence.
    + simpl. intros e [= <-]. split; [reflexivity | congruence].
  - split.
    + intros _. exists st1. simpl. repeat split; assumption.
    + simpl. discriminate.
Qed.

Lemma training_run_no_patience args ms st w st' w' :
  training_run args ms st w st' w' ->
  arg_patience args <= 0 -> 0 <= patience st ->
  num_trial st' = num_trial st /\
  scheduler_steps (model st') = scheduler_steps (model st) /\
  0 <= patience st'.
Proof.
  induction 1 as [st w|m ms st w st0 w0 st1 w1 st' w' Hb Hd Hrun IH];
    intros HP Hp.
  - repeat split. exact Hp.
  - destruct Hb as (_ & _ & _ & Bn & Bpat & _ & _ & Bs & _).
    assert (Hd2 : (validation_decision args m st0 w0).2 = Ok st1)
      by (rewrite Hd; reflexivity).
    apply validation_decision_state in Hd2 as (_ & _ & Hep).
    destruct (validation_decision_no_patience args m st0 w0 HP) as [Hok _];
      [lia|].
    destruct (Hok Hep) as (st1' & Hr & Hn & Hm & Hp1 & _).
    rewrite Hd in Hr. injection Hr as <-.
    destruct (IH HP Hp1) as (Hn' & Hs' & Hp').
    rewrite Hn', Hs', Hn, Hm, Bn, Bs. repeat split. exact Hp'.
Qed.

(** X18. With a patience limit of 0 (or below) the schedule is switched
    off: along the loop, whatever the metrics, no validation ever counts a
    trial or makes a scheduler step; and validations in direct succession
    return, with the model as it was, unless they fall into the epoch of
    the epoch limit, and then the process exits with status 0. *)
Theorem no_trial_without_patience (args : Args) (ms : list Q)
    (st : train_state) (w : world) :
  arg_patience args <= 0 -> 0 <= patience st ->
  (forall st' w',
     training_run args ms st w st' w' ->
     num_trial st' = num_trial st /\
     scheduler_steps (model st') = scheduler_steps (model st)) /\
  (epoch st <> arg_max_epoch args ->
   exists st',
     (validations args ms st w).2 = Ok st' /\
     num_trial st' = num_trial st /\ model st' = model st) /\
  (forall e, (validations args ms st w).2 = Raise e ->
             e = SystemExit 0 /\ epoch st = arg_max_epoch args).
Proof.
  intros HP Hp0. split.
  { intros st' w' Hrun.
    destruct (training_run_no_patience _ _ _ _ _ _ Hrun HP Hp0)
      as (Hn & Hs & _).
    split; assumption. }
  revert st w Hp0.
  induction ms as [|m ms IH]; intros st w Hp.
  - simpl. split; [|discriminate].
    intros _. exists st. repeat split.
  - rewrite validations_cons.
    destruct (validation_decision_no_patience args m st w HP Hp)
      as [Hok Herr].
    destruct (validation_decision args m st w) as [w1 [st1|e]] eqn:E.
    + simpl in Hok, Herr. split.
      * intros Hep. destruct (Hok Hep) as (st' & [= <-] & Hn & Hm & Hp1 & He).
        destruct (IH st1 w1 Hp1) as [Hok' _].
        destruct Hok' as (st2 & Hr & Hn2 & Hm2); [congruence|].
        exists st2. split; [exact Hr|]. split; congruence.
      * intros e He.
        assert (Hst : (validation_decision args m st w).2 = Ok st1)
          by (rewrite E; reflexivity).
        apply validation_decision_state in Hst as (Hu & _ & Hne).
        destruct (Hok Hne) as (st' & [= <-] & _ & _ & Hp1 & Hep1).
        destruct (IH st1 w1 Hp1) as [_ Herr'].
        destruct (Herr' e He) as [-> Heq]. split; [reflexivity|]. congruence.
    + simpl in Hok, Herr. split.
      * intros Hep. destruct (Hok Hep) as (st' & Hr & _). discriminate.
      * simpl. intros e' [= <-]. apply Herr. reflexivity.
Qed.

(** X19. What a trial reloads is what the last improving validation
    saved: if a validation improves on the history, and a later validation
    hits a trial while the two checkpoint files still hold what was
    written then, the model continues with the parameters it had at the
    improving validation, whatever training made of them in between. *)
Theorem trial_restores_best_checkpoint (args : Args) (m1 m2 : Q)
    (st st2 : train_state) (w w2 : world) :
  let w1 := (validation_update args m1 st w).1 in
  let path := model_save_path st in
  improving (hist_valid_scores st) m1 ->
  model_save_path st2 = path ->
  checkpoints w2 !! (path ++ "-encoder")%string
    = checkpoints w1 !! (path ++ "-encoder")%string ->
  checkpoints w2 !! (path ++ "-decoder")%string
    = checkpoints w1 !! (path ++ "-decoder")%string ->
  non_improving (hist_valid_scores st2) m2 ->
  patience st2 + 1 = arg_patience args ->
  num_trial st2 + 1 <> arg_max_num_trial args ->
  exists st3,
    (validation_update args m2 st2 w2).2 = Ok st3 /\
    encoder (model st3) = encoder (model st) /\
    decoder (model st3) = decoder (model st) /\
    num_trial st3 = num_trial st2 + 1.
Proof.
  cbv zeta. intros Hi Hpath Henc Hdec Hn Hpat Hmax.
  apply is_better_true in Hi.
  rewrite (validation_update_better _ _ _ _ Hi) in Henc, Hdec.
  simpl in Henc, Hdec.
  rewrite lookup_insert_ne in Henc by apply encoder_path_neq.
  rewrite lookup_insert_eq in Henc. rewrite lookup_insert_eq in Hdec.
  apply is_better_false in Hn.
  rewrite (validation_update_worse _ _ _ _ Hn). cbv zeta.
  replace (patience st2 <? arg_patience args) with true
    by (symmetry; apply Z.ltb_lt; lia).
  replace (patience st2 + 1 =? arg_patience args) with true
    by (symmetry; apply Z.eqb_eq; lia).
  replace (num_trial st2 + 1 =? arg_max_num_trial args) with false
    by (symmetry; apply Z.eqb_neq; lia).
  rewrite Hpath, Henc, Hdec.
  eexists. split; [reflexivity|]. simpl. repeat split.
Qed.

Lemma beam_search_loop_collects (m : NMT) beam_size max_decoding_time_step :
  forall test_data_src hypotheses,
    beam_search_loop (VModel m) test_data_src beam_size
                     max_decoding_time_step hypotheses
    = Ok (hypotheses ++ replicate (length test_data_src) (VInt 0)).
Proof.
  induction test_data_src as [|s data IH]; intros hyps.
  - simpl. rewrite app_nil_r. reflexivity.
  - simpl. rewrite IH, <- app_assoc. reflexivity.
Qed.

(** X20. What the method [beam_search] returns cannot be used by
    [decode]: for a model and a test set that is not empty, the loop of
    the driver collects one result per sentence, each the integer 0, and
    both the selection of the top hypotheses and the loop that writes the
    output then raise [TypeError] at [hyps[0]], the latter before it
    writes a line. *)
Theorem method_results_cannot_be_indexed (m : NMT)
    (test_data_src : list (list string))
    (beam_size max_decoding_time_step : Z) :
  test_data_src <> [] ->
  let hypotheses := replicate (length test_data_src) (VInt 0) in
  beam_search_loop (VModel m) test_data_src beam_size
                   max_decoding_time_step [] = Ok hypotheses /\
  top_hypotheses_loop hypotheses
    = Raise (TypeError "'int' object is not subscriptable") /\
  forall path (w : world),
    output_loop path (zip test_data_src hypotheses) w
    = (w, Raise (TypeError "'int' object is not subscriptable")).
Proof.
  intros Hne. cbv zeta. split; [apply beam_search_loop_collects|].
  destruct test_data_src as [|s data]; [congruence|].
  split; [reflexivity|]. intros path w. reflexivity.
Qed.

(** The loop that writes the lines only appends to its file. *)
Lemma write_loop_appends path :
  forall (pairs : list (list string * option (list string))) (w : world) s,
    text_files w !! path = Some s ->
    exists s',
      (write_loop path pairs w).1
      = mkWorld (checkpoints w)
                (<[path := (s ++ s')%string]> (text_files w)) (trace w).
Proof.
  induction pairs as [|[r [h|]] pairs IH]; intros w s Hs.
  - exists "". simpl.
    rewrite string_app_nil_r, (insert_id _ _ _ Hs). destruct w; reflexivity.
  - simpl. unfold bind at 1. unfold write at 1. rewrite Hs. simpl.
    destruct (IH (mkWorld (checkpoints w)
                    (<[path := (s ++ (Py.join " " h ++ newline))%string]>
                       (text_files w)) (trace w))
                 (s ++ (Py.join " " h ++ newline))%string)
      as (s' & Hrun); [apply lookup_insert_eq|].
    exists ((Py.join " " h ++ newline) ++ s')%string.
    rewrite Hrun. simpl.
    rewrite insert_insert_eq, string_app_assoc. reflexivity.
  - exists "". simpl.
    rewrite string_app_nil_r, (insert_id _ _ _ Hs). destruct w; reflexivity.
Qed.

Lemma evaluate_ppl_run (self : NMT)
    (dev_data : list (list string * list string)) (batch_size : Z)
    (w : world) :
  evaluate_ppl self dev_data batch_size w =
    match batches_loop self (batch_iter dev_data batch_size)
                       (mkEvalAcc [] [] [] 0%Q 0) with
    | Raise e => (w, Raise e)
    | Ok acc =>
        match write_loop "decode.txt"
                (zip (ref_corpus acc) (hyp_corpus_ordered acc))
                (mkWorld (checkpoints w)
                   (<["decode.txt" :=
                        default "" (text_files w !! "decode.txt")]>
                      (text_files w)) (trace w)) with
        | (w2, Raise e) => (w2, Raise e)
        | (w2, Ok _) =>
            match compute_corpus_level_bleu_score
                    (corpus_bleu (list string))
                    (ref_corpus acc) (hyp_corpus acc) with
            | Raise e => (w2, Raise e)
            | Ok b =>
                (printed w2 [PrintBleuScore b],
                 if count acc =? 0 then Raise ZeroDivisionError
                 else Ok (cum_loss acc / inject_Z (count acc))%Q)
            end
        end
    end.
Proof.
  unfold evaluate_ppl, bind, lift.
  destruct (batches_loop self (batch_iter dev_data batch_size)
              (mkEvalAcc [] [] [] 0%Q 0)) as [acc|e]; [|reflexivity].
  unfold open_append at 1.
  destruct (write_loop "decode.txt" _ _) as [w2 [[]|e2]]; [|reflexivity].
  destruct (compute_corpus_level_bleu_score _ _ _) as [b|e3]; [|reflexivity].
  unfold print, printed. destruct (count acc =? 0); reflexivity.
Qed.

(** X21. Whether it returns or raises, [evaluate_ppl] changes no
    checkpoint file and no text file other than ['decode.txt'], to which it
    only appends: what the file held stays in front; and all it prints is
    at most one BLEU score. *)
Theorem evaluate_ppl_only_appends (self : NMT)
    (dev_data : list (list string * list string)) (batch_size : Z)
    (w : world) :
  let w' := (evaluate_ppl self dev_data batch_size w).1 in
  appends_to "decode.txt" w w' /\
  exists evs,
    trace w' = trace w ++ evs /\
    (evs = [] \/ exists b, evs = [PrintBleuScore b]).
Proof.
  cbv zeta. rewrite evaluate_ppl_run.
  destruct (batches_loop self (batch_iter dev_data batch_size)
              (mkEvalAcc [] [] [] 0%Q 0)) as [acc|e].
  - destruct (write_loop_appends "decode.txt"
                (zip (ref_corpus acc) (hyp_corpus_ordered acc))
                (mkWorld (checkpoints w)
                   (<["decode.txt" := default "" (text_files w !! "decode.txt")]>
                      (text_files w)) (trace w))
                (default "" (text_files w !! "decode.txt")))
      as (s' & Hrun); [apply lookup_insert_eq|].
    destruct (write_loop "decode.txt" _ _) as [w2 r2].
    simpl in Hrun. subst w2. rewrite insert_insert_eq.
    assert (Happ : forall t,
              appends_to "decode.txt" w
                (mkWorld (checkpoints w)
                   (<["decode.txt" :=
                        (default "" (text_files w !! "decode.txt") ++ s')%string]>
                      (text_files w)) t)).
    { intros t. split; [reflexivity|]. split.
      - intros p Hp. simpl. apply lookup_insert_ne. congruence.
      - right. exists s'. simpl. apply lookup_insert_eq. }
    destruct r2 as [[]|e2].
    + destruct (compute_corpus_level_bleu_score _ _ _) as [b|e3].
      * simpl. split; [apply Happ|].
        exists [PrintBleuScore b]. split; [reflexivity|].
        right. exists b. reflexivity.
      * simpl. split; [apply Happ|].
        exists []. rewrite app_nil_r. split; [reflexivity | left; reflexivity].
    + simpl. split; [apply Happ|].
      exists []. rewrite app_nil_r. split; [reflexivity | left; reflexivity].
  - simpl. split.
    + split; [reflexivity|]. split; [reflexivity | left; reflexivity].
    + exists []. rewrite app_nil_r. split; [reflexivity | left; reflexivity].
Qed.

End More.

Lemma no_trial_without_patience_witness :
  exists st',
    (validations Scenario.args_no_patience Scenario.metrics Fixture.state0
                 Fixture.empty_world).2 = Ok st' /\
    num_trial st' = num_trial Fixture.state0 /\
    model st' = model Fixture.state0.
Proof.
  destruct (no_trial_without_patience Scenario.args_no_patience
              Scenario.metrics Fixture.state0 Fixture.empty_world)
    as (_ & H & _).
  - simpl. lia.
  - simpl. lia.
  - apply H. simpl. lia.
Defined.

Lemma trial_restores_best_checkpoint_witness :
  exists st3,
    (validation_update Fixture.args (-5 # 2)%Q Scenario.state_trained
       (validation_update Fixture.args (-2 # 1)%Q Fixture.state0
                          Fixture.empty_world).1).2 = Ok st3 /\
    encoder (model st3) = encoder (model Fixture.state0) /\
    decoder (model st3) = decoder (model Fixture.state0) /\
    num_trial st3 = num_trial Scenario.state_trained + 1.
Proof.
  apply (trial_restores_best_checkpoint Fixture.args (-2 # 1)%Q (-5 # 2)%Q
           Fixture.state0 Scenario.state_trained Fixture.empty_world).
  - constructor.
  - reflexivity.
  - reflexivity.
  - reflexivity.
  - apply Exists_cons_hd. unfold Qle. simpl. lia.
  - reflexivity.
  - simpl. lia.
Defined.

Lemma method_results_cannot_be_indexed_witness :
  beam_search_loop (VModel Fixture.nmt) [["a"]; ["b"; "c"]] 5 70 []
    = Ok (replicate 2 (VInt 0)) /\
  top_hypotheses_loop (replicate 2 (@VInt Fixture.collaborators 0))
    = Raise (TypeError "'int' object is not subscriptable") /\
  forall path (w : @world Fixture.collaborators),
    output_loop path (zip [["a"]; ["b"; "c"]] (replicate 2 (VInt 0))) w
    = (w, Raise (TypeError "'int' object is not subscriptable")).
Proof.
  apply (method_results_cannot_be_indexed Fixture.nmt [["a"]; ["b"; "c"]] 5 70).
  discriminate.
Defined.
